(** * coldy_lp: the authentication blueprint (app/blueprints/api/auth.py)

    A shallow embedding of the auth blueprint: the two regular expressions
    of [sign_up] with the semantics of Python's [re.search], the request and
    response data, the user table and the token ledger, and the six
    endpoints as state-passing functions that may raise. *)

From Stdlib Require Import ZArith Ascii String List Lia Bool.
From stdpp Require Import base option strings gmap fin_maps.

Import ListNotations.
Set Warnings "-register-all".
Set Default Proof Using "Type".
Local Open Scope string_scope.
Local Open Scope list_scope.

(** ** Characters and character classes

    A Python [str] is a sequence of code points; the model keeps the code
    points below 256, one [ascii] each. *)

Definition code (a : ascii) : nat := nat_of_ascii a.

Definition between (lo hi : nat) (a : ascii) : bool :=
  (lo <=? code a)%nat && (code a <=? hi)%nat.

(** [\d]: the decimal digits (below 256 these are 0-9 only). *)
Definition is_digit (a : ascii) : bool := between 48 57 a.
(** [[a-z]] and [[A-Z]]. *)
Definition is_lower (a : ascii) : bool := between 97 122 a.
Definition is_upper (a : ascii) : bool := between 65 90 a.

(** [\w] on a [str] pattern: alphanumeric code points and the underscore.
    Below 256 the alphanumerics outside ASCII are the Latin-1 letters and
    the superscript and fraction digits. *)
Definition is_word (a : ascii) : bool :=
  is_digit a || is_lower a || is_upper a || (code a =? 95)%nat
  || (code a =? 170)%nat || between 178 179 a || (code a =? 181)%nat
  || between 185 186 a || between 188 190 a
  || between 192 214 a || between 216 246 a || between 248 255 a.

Definition is_newline (a : ascii) : bool := (code a =? 10)%nat.
(** [.] without DOTALL: anything but a line feed. *)
Definition is_any (a : ascii) : bool := negb (is_newline a).
Definition is_dot (a : ascii) : bool := (code a =? 46)%nat.
Definition is_dash (a : ascii) : bool := (code a =? 45)%nat.
Definition is_at (a : ascii) : bool := (code a =? 64)%nat.
(** [[\.-]] *)
Definition is_dot_or_dash (a : ascii) : bool := is_dot a || is_dash a.

Definition newline : ascii := ascii_of_nat 10.

(** ** Regular expressions, as far as the two patterns need them *)

Inductive regex : Type :=
| Eps                                (* the empty pattern *)
| Chr (c : ascii -> bool)            (* one character of a class *)
| Cat (r1 r2 : regex)                (* r1 r2 *)
| Alt (r1 r2 : regex)                (* r1|r2 *)
| Star (r : regex)                   (* r* *)
| Look (r : regex)                   (* (?=r) *)
| Bol                                (* ^ *)
| Eol.                               (* $ *)

Definition plus (r : regex) : regex := Cat r (Star r).   (* r+ *)
Definition opt (r : regex) : regex := Alt r Eps.          (* r? *)

(** A matching state: the position reached and the text still ahead. *)
Definition mstate : Type := nat * list ascii.

(** [^] without MULTILINE holds at position 0 only; [$] holds at the end of
    the text and also just before a line feed that ends the text. *)
Definition at_bol (st : mstate) : bool := (fst st =? 0)%nat.
Definition at_eol (st : mstate) : bool :=
  match snd st with
  | [] => true
  | [a] => is_newline a
  | _ => false
  end.

Definition shorter (st st' : mstate) : bool :=
  (List.length (snd st') <? List.length (snd st))%nat.

(** All the states a loop can stop in: the starting state, or one more
    round that consumed something, and on from there. *)
Fixpoint iterate (step : mstate -> list mstate) (fuel : nat) (st : mstate)
  : list mstate :=
  st :: match fuel with
        | O => []
        | S n => flat_map (iterate step n) (List.filter (shorter st) (step st))
        end.

(** Every state a backtracking matcher can reach after [r], from [st]. *)
Fixpoint run (r : regex) (st : mstate) : list mstate :=
  match r with
  | Eps => [st]
  | Chr c =>
      match snd st with
      | a :: s => if c a then [(S (fst st), s)] else []
      | [] => []
      end
  | Cat r1 r2 => flat_map (run r2) (run r1 st)
  | Alt r1 r2 => run r1 st ++ run r2 st
  | Star r => iterate (run r) (List.length (snd st)) st
  | Look r => match run r st with [] => [] | _ :: _ => [st] end
  | Bol => if at_bol st then [st] else []
  | Eol => if at_eol st then [st] else []
  end.

(** [re.search(r, s) is not None]: a match starting at some position. *)
Definition matches_at (r : regex) (s : list ascii) (i : nat) : bool :=
  match run r (i, skipn i s) with [] => false | _ :: _ => true end.

Definition re_search (r : regex) (s : string) : bool :=
  let l := list_ascii_of_string s in
  existsb (matches_at r l) (seq 0 (S (List.length l))).

(** [ereg = '^\w+([\.-]?\w+)*@\w+([\.-]?\w+)*(\.\w{2,3})+$'] *)
Definition word : regex := Chr is_word.
Definition sep_word : regex := Cat (opt (Chr is_dot_or_dash)) (plus word).
Definition tld : regex := Cat (Chr is_dot) (Cat word (Cat word (opt word))).
Definition ereg : regex :=
  Cat Bol (Cat (plus word) (Cat (Star sep_word) (Cat (Chr is_at)
    (Cat (plus word) (Cat (Star sep_word) (Cat (plus tld) Eol)))))).

(** [preg = '^.*(?=.{8,})(?=.*\d)(?=.*[a-z])(?=.*[A-Z]).*$'] *)
Definition dot : regex := Chr is_any.
Fixpoint times (n : nat) (r : regex) : regex :=
  match n with O => Eps | S n' => Cat r (times n' r) end.
Definition preg : regex :=
  Cat Bol (Cat (Star dot)
    (Cat (Look (Cat (times 8 dot) (Star dot)))
    (Cat (Look (Cat (Star dot) (Chr is_digit)))
    (Cat (Look (Cat (Star dot) (Chr is_lower)))
    (Cat (Look (Cat (Star dot) (Chr is_upper)))
    (Cat (Star dot) Eol)))))).

(** ** JSON values and the Python operations the views apply to them *)

Inductive json : Type :=
| JNull
| JBool (b : bool)
| JNum (n : Z)
| JStr (s : string)
| JArr (l : list json)
| JObj (items : list (string * json)).   (* the items of a dict *)

(** [d.get(k)] / [k in d] / [d[k] = v] on the items of a dict. *)
Fixpoint dict_get (k : string) (items : list (string * json)) : option json :=
  match items with
  | [] => None
  | (k', v) :: rest => if String.eqb k k' then Some v else dict_get k rest
  end.

Fixpoint dict_set (k : string) (v : json) (items : list (string * json))
  : list (string * json) :=
  match items with
  | [] => [(k, v)]
  | (k', v') :: rest =>
      if String.eqb k k' then (k, v) :: rest else (k', v') :: dict_set k v rest
  end.

(** Python truthiness: [not v] is [negb (truthy v)]. *)
Definition truthy (v : json) : bool :=
  match v with
  | JNull => false
  | JBool b => b
  | JNum n => negb (n =? 0)%Z
  | JStr s => negb (String.eqb s "")
  | JArr l => match l with [] => false | _ => true end
  | JObj items => match items with [] => false | _ => true end
  end.

Definition is_str (k : string) (v : json) : bool :=
  match v with JStr s => String.eqb s k | _ => false end.

(** [k in s] for two strings: [k] occurs in [s]. *)
Fixpoint occurs (k s : string) : bool :=
  String.prefix k s ||
  match s with
  | EmptyString => false
  | String _ s' => occurs k s'
  end.

(** ** Exceptions (app/utils/exceptions.py and the ones Python raises) *)

Inductive exn : Type :=
| APIException (error : string) (status_code : nat)
               (payload : option (list (string * json)))
| TokenNotFound
| IntegrityError
| DuplicateToken
| DecodeError
| TypeError
| AttributeError
| NoAuthorizationError
| RevokedTokenError
| ExpiredSignatureError
| InvalidTokenError
| DBAPIError.

(** [APIException(message, status_code=None, payload=None)]: the class
    attribute [status_code = 400] stays unless a code is given. *)
Definition api_exception (message : string) (status_code : option nat) : exn :=
  APIException message (default 400%nat status_code) None.

(** [APIException.to_dict]: [rv = dict(payload or ()); rv['error'] = error]. *)
Definition to_dict (error : string) (payload : option (list (string * json)))
  : json :=
  JObj (dict_set "error" (JStr error) (default [] payload)).

Inductive result (A : Type) : Type :=
| Ok (a : A)
| Raise (e : exn).
Arguments Ok {A} a.
Arguments Raise {A} e.

Definition bind {A B : Type} (m : result A) (f : A -> result B) : result B :=
  match m with Ok a => f a | Raise e => Raise e end.

(** [k in body] and [body[k]] for a body of any JSON type. *)
Definition py_contains (k : string) (body : json) : result bool :=
  match body with
  | JObj items => Ok (bool_decide (is_Some (dict_get k items)))
  | JArr l => Ok (existsb (is_str k) l)
  | JStr s => Ok (occurs k s)
  | JNull | JBool _ | JNum _ => Raise TypeError
  end.

Definition py_getitem (k : string) (body : json) : result json :=
  match body with
  | JObj items =>
      match dict_get k items with Some v => Ok v | None => Raise TypeError end
  | _ => Raise TypeError
  end.

(** [re.search(pattern, v)]: a [TypeError] unless [v] is a string. *)
Definition py_re_search (r : regex) (v : json) : result bool :=
  match v with JStr s => Ok (re_search r s) | _ => Raise TypeError end.

(** ** The store: the user table and the token ledger *)

Record User : Type := {
  email : string;
  password_hash : option string;   (* None: social login only *)
  fname : string;
  lname : string;
  public_id : string
}.

(** A ledger row; its [jti], the primary key, is the key of the map. *)
Record TokenBlacklist : Type := {
  token_type : string;
  user_identity : string;
  revoked : bool;
  expires : Z
}.

Record Store : Type := {
  users : list User;
  ledger : gmap string TokenBlacklist
}.

Definition with_ledger (st : Store) (l : gmap string TokenBlacklist) : Store :=
  {| users := users st; ledger := l |}.

Definition set_revoked (v : bool) (t : TokenBlacklist) : TokenBlacklist :=
  {| token_type := token_type t; user_identity := user_identity t;
     revoked := v; expires := expires t |}.

(** The claims of a decoded token. *)
Record Claims : Type := {
  jti : string;
  identity : string;
  type : string;
  exp : Z
}.

(** ** Requests, responses and what the process draws from outside *)

(** What the JWT extension finds in the Authorization header. *)
Inductive Credential : Type :=
| NoToken                    (* no Authorization header *)
| ExpiredToken               (* a token past its expiry *)
| InvalidToken               (* a malformed header, a token that does not
                                decode or verify, or one of the wrong type *)
| ValidToken (c : Claims).   (* a token that verifies, with its claims *)

Record Request : Type := {
  is_json : bool;            (* request.is_json: a JSON content type *)
  data : option json;        (* the payload, when it parses as JSON *)
  credential : Credential    (* the Authorization header *)
}.

(** The claims of the bearer token, when it is present and valid. *)
Definition bearer (req : Request) : option Claims :=
  match credential req with
  | ValidToken c => Some c
  | NoToken | ExpiredToken | InvalidToken => None
  end.

(** [request.get_json(silent=True)] *)
Definition get_json (req : Request) : option json :=
  if is_json req then data req else None.

Record Response : Type := { status : nat; body : json }.

(** [jsonify(body), status] *)
Definition jsonify (b : json) (code : nat) : Response :=
  {| status := code; body := b |}.

Record Env : Type := {
  uuid4 : string;    (* the next [uuid.uuid4()], as a string *)
  now : Z            (* the clock, in seconds *)
}.

(** [JWT_ACCESS_TOKEN_EXPIRES = datetime.timedelta(days=1)] (config.py) *)
Definition JWT_ACCESS_TOKEN_EXPIRES : Z := 86400.

(** The libraries and the modules of the application that the blueprint
    imports and that are no part of it. *)
Class Lib : Type := {
  generate_password_hash : string -> string;        (* werkzeug *)
  check_password_hash : string -> string -> bool;   (* werkzeug *)
  encode_token : Claims -> string;                  (* flask_jwt_extended *)
  decode_token : string -> option Claims;           (* flask_jwt_extended *)
  normalize_names : json -> result string;          (* utils.helpers *)
  (* the database: [User.query.filter_by(email=v).first()] for a number or
     a boolean [v], which the engines compare with a text column each in
     its own way *)
  filter_by_scalar : json -> list User -> result (option User);
  serialize_public : User -> json;                  (* models.User *)
  serialize : string -> TokenBlacklist -> json      (* models.TokenBlacklist *)
}.

(** ** The helpers of utils/helpers.py that the blueprint calls *)

Section Helpers.
Context {L : Lib}.

(** Modelled from the spec: utils.helpers.is_token_revoked is not among the
    sources. Spec 4.2: look the [jti] of the claims up in the ledger; absent
    counts as revoked; otherwise the stored [revoked] flag. *)
Definition is_token_revoked (decoded_token : Claims)
    (l : gmap string TokenBlacklist) : bool :=
  match l !! jti decoded_token with
  | None => true
  | Some t => revoked t
  end.

(** Modelled from the spec: utils.helpers.add_token_to_database is not among
    the sources. Spec 4.1 [insert] and 4.3 [issue]: the row of the decoded
    token, not revoked, expiring when the token does; a [jti] already in the
    ledger is a [DuplicateToken] fault. *)
Definition add_token_to_database (encoded_token : string)
    (l : gmap string TokenBlacklist) : result (gmap string TokenBlacklist) :=
  match decode_token encoded_token with
  | None => Raise DecodeError
  | Some c =>
      match l !! jti c with
      | Some _ => Raise DuplicateToken
      | None =>
          Ok (<[jti c := {| token_type := type c; user_identity := identity c;
                            revoked := false; expires := exp c |}]> l)
      end
  end.

(** Modelled from the spec: utils.helpers.get_user_tokens is not among the
    sources. Spec 4.1 [list_for_user]: the entries owned by the identity. *)
Definition get_user_tokens (user_identity0 : string)
    (l : gmap string TokenBlacklist) : list (string * TokenBlacklist) :=
  map_to_list (filter (fun kv => user_identity (snd kv) = user_identity0) l).

(** Modelled from the spec: utils.helpers.revoke_token and unrevoke_token
    are not among the sources. Spec 4.3 [toggle] over 4.1 [set_revoked]: the
    entry must exist and belong to the caller, else [TokenNotFound]. *)
Definition toggle (v : bool) (token_id user_identity0 : string)
    (l : gmap string TokenBlacklist) : result (gmap string TokenBlacklist) :=
  match l !! token_id with
  | None => Raise TokenNotFound
  | Some t =>
      if decide (user_identity t = user_identity0)
      then Ok (<[token_id := set_revoked v t]> l)
      else Raise TokenNotFound
  end.
Definition revoke_token := toggle true.
Definition unrevoke_token := toggle false.

(** Modelled from the spec: utils.helpers.prune_database is not among the
    sources. Spec 4.1 [prune_expired]: every entry with [expires < now]
    goes, whatever its [revoked] flag. *)
Definition prune_database (now0 : Z) (l : gmap string TokenBlacklist)
  : gmap string TokenBlacklist :=
  filter (fun kv => ~ (expires (snd kv) < now0)%Z) l.

(** ** The views of the blueprint *)

Definition View : Type := Env -> Request -> Store -> result Response * Store.

(** [@jwt.token_in_blacklist_loader] *)
Definition check_if_token_revoked (decoded_token : Claims) (st : Store) : bool :=
  is_token_revoked decoded_token (ledger st).

(** [@jwt_required] with [JWT_BLACKLIST_ENABLED]: the view runs for a valid
    bearer token that the ledger does not hold revoked, and receives what
    [get_jwt_identity()] returns; otherwise the extension raises. *)
Definition jwt_required (view : string -> View) : View :=
  fun env req st =>
    match credential req with
    | NoToken => (Raise NoAuthorizationError, st)
    | ExpiredToken => (Raise ExpiredSignatureError, st)
    | InvalidToken => (Raise InvalidTokenError, st)
    | ValidToken c =>
        if check_if_token_revoked c st then (Raise RevokedTokenError, st)
        else view (identity c) env req st
    end.

(** [db.session.add(new_user); db.session.commit()]: the email column is
    unique. *)
Definition commit_user (u : User) (us : list User) : result (list User) :=
  if existsb (fun u' => String.eqb (email u') (email u)) us
  then Raise IntegrityError
  else Ok (us ++ [u]).

(** [User(email=, password=, fname=, lname=, public_id=)]: the model keeps
    the hash of the password. *)
Definition new_User (email0 password0 fname0 lname0 public_id0 : string) : User :=
  {| email := email0; password_hash := Some (generate_password_hash password0);
     fname := fname0; lname := lname0; public_id := public_id0 |}.

Definition field (k : string) (missing : string) (body : json) : result json :=
  bind (py_contains k body) (fun present =>
    if negb present then Raise (api_exception missing None)
    else py_getitem k body).

Definition checked (r : regex) (bad : string) (v : json) : result json :=
  bind (py_re_search r v) (fun found =>
    if negb found then Raise (api_exception bad None) else Ok v).

Definition as_str (v : json) : result string :=
  match v with JStr s => Ok s | _ => Raise TypeError end.

(** The checks of [sign_up] up to the [try], in the order of the source. *)
Definition sign_up_fields (req : Request) : result (json * json * string * string) :=
  if negb (is_json req) then Raise (api_exception "json request only" None) else
  match get_json req with
  | None | Some JNull => Raise (api_exception "not body in request" None)
  | Some body =>
      bind (field "email" "email not found in request" body) (fun e =>
      bind (checked ereg "invalid email format" e) (fun e =>
      bind (field "password" "password not found in request" body) (fun p =>
      bind (checked preg "insecure password" p) (fun p =>
      bind (field "fname" "fname not found in request" body) (fun f =>
      bind (normalize_names f) (fun fname0 =>
      bind (field "lname" "lname not found in request" body) (fun l =>
      bind (normalize_names l) (fun lname0 =>
      Ok (e, p, fname0, lname0)))))))))
  end.

Definition sign_up : View :=
  fun env req st =>
    match sign_up_fields req with
    | Raise e => (Raise e, st)
    | Ok (JStr e, JStr p, fname0, lname0) =>
        match commit_user (new_User e p fname0 lname0 (uuid4 env)) (users st) with
        | Ok us =>
            (Ok (jsonify (JObj [("success", JStr "created")]) 201),
             {| users := us; ledger := ledger st |})
        | Raise IntegrityError =>
            (* db.session.rollback() *)
            (Raise (api_exception "user already created - login instead" None), st)
        | Raise x => (Raise x, st)
        end
    | Ok _ => (Raise TypeError, st)
    end.

(** [User.query.filter_by(email=v).first()]: the first user with that
    email; [None] is compared with [IS NULL], which no stored email
    satisfies; a list or a dict cannot be bound to the statement. *)
Definition first_by_email (v : json) (us : list User) : result (option User) :=
  match v with
  | JStr e => Ok (List.find (fun u => String.eqb (email u) e) us)
  | JNull => Ok None
  | JBool _ | JNum _ => filter_by_scalar v us
  | JArr _ | JObj _ => Raise DBAPIError
  end.

(** [create_access_token(identity=...)]: a fresh [jti], type access, and
    the configured time to live. *)
Definition create_access_token (env : Env) (identity0 : string) : string :=
  encode_token {| jti := uuid4 env; identity := identity0; type := "access";
                  exp := (now env + JWT_ACCESS_TOKEN_EXPIRES)%Z |}.

(** [k not in body] raises the exception of the message. *)
Definition present (k : string) (missing : string) (body : json) : result json :=
  bind (py_contains k body) (fun found =>
    if negb found then Raise (api_exception missing None) else Ok body).

(** The checks of [login] up to the query, in the order of the source. *)
Definition login_fields (req : Request) : result json :=
  if negb (is_json req) then Raise (api_exception "not json request" None) else
  match get_json req with
  | None | Some JNull => Raise (api_exception "not json request" None)
  | Some body =>
      bind (present "email" "misising email" body) (fun _ =>
      present "password" "missing password" body)
  end.

Definition login : View :=
  fun env req st =>
    match login_fields req with
    | Raise e => (Raise e, st)
    | Ok body =>
        match bind (py_getitem "email" body)
                   (fun e => first_by_email e (users st)) with
        | Raise x => (Raise x, st)
        | Ok None => (Raise (api_exception "user not found" (Some 404%nat)), st)
        | Ok (Some user) =>
            match password_hash user with
            | None => (Raise (api_exception "user logged with social login" None), st)
            | Some h =>
                match bind (py_getitem "password" body) as_str with
                | Raise x => (Raise x, st)
                | Ok pw =>
                    if negb (check_password_hash h pw)
                    then (Raise (api_exception "wrong password" (Some 404%nat)), st)
                    else
                      let access_token := create_access_token env (public_id user) in
                      match add_token_to_database access_token (ledger st) with
                      | Raise x => (Raise x, st)
                      | Ok l =>
                          (Ok (jsonify (JObj [("user", serialize_public user);
                                              ("access_token", JStr access_token)])
                                       200),
                           with_ledger st l)
                      end
                end
            end
        end
    end.

Definition get_tokens : View :=
  jwt_required (fun user_identity0 env req st =>
    let all_tokens := get_user_tokens user_identity0 (ledger st) in
    (Ok (jsonify (JArr (List.map (fun kv => serialize (fst kv) (snd kv)) all_tokens))
                 200), st)).

Definition missing_revoke : Response :=
  jsonify (JObj [("error", JStr "Missing 'revoke' in body")]) 400.

(** [json_data.get('revoke', None)] *)
Definition py_get (k : string) (v : json) : result json :=
  match v with
  | JObj items => Ok (default JNull (dict_get k items))
  | _ => Raise AttributeError
  end.

Definition modify_token (token_id : string) : View :=
  jwt_required (fun user_identity0 env req st =>
    match get_json req with
    | None => (Ok missing_revoke, st)
    | Some json_data =>
        if negb (truthy json_data) then (Ok missing_revoke, st) else
        match py_get "revoke" json_data with
        | Raise x => (Raise x, st)
        | Ok JNull => (Ok missing_revoke, st)
        | Ok (JBool revoke) =>
            match (if revoke then revoke_token token_id user_identity0 (ledger st)
                   else unrevoke_token token_id user_identity0 (ledger st)) with
            | Ok l =>
                (Ok (jsonify (JObj [("msg", JStr (if revoke then "Token revoked"
                                                  else "Token unrevoked"))]) 200),
                 with_ledger st l)
            | Raise TokenNotFound =>
                (Ok (jsonify (JObj [("msg", JStr "The specified token was not found")])
                             404), st)
            | Raise x => (Raise x, st)
            end
        | Ok _ =>
            (Ok (jsonify (JObj [("error", JStr "'revoke' must be a boolean")]) 400), st)
        end
    end).

(** The rows that [TokenBlacklist.query.filter_by(user_identity=...,
    revoked=False).all()] returns. *)
Definition active_tokens (user_identity0 : string)
    (l : gmap string TokenBlacklist) : gmap string TokenBlacklist :=
  filter (fun kv => user_identity (snd kv) = user_identity0
                    /\ revoked (snd kv) = false) l.

(** [for token in tokens: token.revoked = True], then the commit. *)
Definition logout_everywhere (user_identity0 : string)
    (l : gmap string TokenBlacklist) : gmap string TokenBlacklist :=
  (set_revoked true <$> active_tokens user_identity0 l) ∪ l.

Definition logout_user : View :=
  jwt_required (fun user_identity0 env req st =>
    if negb (is_json req) then (Raise (api_exception "JSON request only" None), st)
    else
      (Ok (jsonify (JObj [("success", JStr "user logged out")]) 200),
       with_ledger st (logout_everywhere user_identity0 (ledger st)))).

Definition prune_db : View :=
  jwt_required (fun user_identity0 env req st =>
    (Ok (jsonify (JObj [("success", JStr "db pruned correctly")]) 200),
     with_ledger st (prune_database (now env) (ledger st)))).

(** ** From what a view returns or raises to the HTTP response *)

(** [@auth.errorhandler(APIException)] *)
Definition handle_invalid_usage (error0 : string) (status_code0 : nat)
    (payload0 : option (list (string * json))) : Response :=
  jsonify (to_dict error0 payload0) status_code0.

(** The handlers of the JWT extension answer 401 for a missing, an
    expired or a revoked token and 422 for an invalid one (each with a
    message of its own; the one of the invalid token varies with the fault
    and is left out); any other exception is a 500 of the framework. *)
Definition respond (r : result Response) : Response :=
  match r with
  | Ok resp => resp
  | Raise (APIException e c p) => handle_invalid_usage e c p
  | Raise NoAuthorizationError =>
      jsonify (JObj [("msg", JStr "Missing Authorization Header")]) 401
  | Raise ExpiredSignatureError =>
      jsonify (JObj [("msg", JStr "Token has expired")]) 401
  | Raise RevokedTokenError =>
      jsonify (JObj [("msg", JStr "Token has been revoked")]) 401
  | Raise InvalidTokenError => jsonify JNull 422
  | Raise _ => jsonify JNull 500
  end.

Inductive Endpoint : Type :=
| SignUp          (* POST /api/auth/sign-up *)
| Login           (* POST /api/auth/login *)
| GetTokens       (* GET  /api/auth/token *)
| ModifyToken (token_id : string)   (* PUT /api/auth/token/<token_id> *)
| LogoutUser      (* GET  /api/auth/logout *)
| PruneDb.        (* GET  /api/auth/prune-db *)

Definition view_of (ep : Endpoint) : View :=
  match ep with
  | SignUp => sign_up
  | Login => login
  | GetTokens => get_tokens
  | ModifyToken token_id => modify_token token_id
  | LogoutUser => logout_user
  | PruneDb => prune_db
  end.

Definition serve (ep : Endpoint) (env : Env) (req : Request) (st : Store)
  : Response * Store :=
  let '(r, st') := view_of ep env req st in (respond r, st').

End Helpers.

(** ** What a pattern matches, as a relation

    [Matches r st st']: from the state [st], the pattern [r] can consume
    text and reach [st']. *)

Inductive Matches : regex -> mstate -> mstate -> Prop :=
| MEps st : Matches Eps st st
| MChr c a p s : c a = true -> Matches (Chr c) (p, a :: s) (S p, s)
| MCat r1 r2 st st1 st2 :
    Matches r1 st st1 -> Matches r2 st1 st2 -> Matches (Cat r1 r2) st st2
| MAltL r1 r2 st st' : Matches r1 st st' -> Matches (Alt r1 r2) st st'
| MAltR r1 r2 st st' : Matches r2 st st' -> Matches (Alt r1 r2) st st'
| MStar0 r st : Matches (Star r) st st
| MStarS r st st1 st2 :
    Matches r st st1 -> Matches (Star r) st1 st2 -> Matches (Star r) st st2
| MLook r st st1 : Matches r st st1 -> Matches (Look r) st st
| MBol st : at_bol st = true -> Matches Bol st st
| MEol st : at_eol st = true -> Matches Eol st st.

Create HintDb regex.
#[local] Hint Constructors Matches : regex.

(** The text up to the first line feed, and what follows it. *)
Fixpoint first_line (s : list ascii) : list ascii :=
  match s with
  | [] => []
  | a :: s' => if is_newline a then [] else a :: first_line s'
  end.

Fixpoint after_first_line (s : list ascii) : list ascii :=
  match s with
  | [] => []
  | a :: s' => if is_newline a then s else after_first_line s'
  end.

(** The text after the last dot (all of it when there is none). *)
Fixpoint last_label (s : list ascii) : list ascii :=
  match s with
  | [] => []
  | a :: s' =>
      if existsb is_dot s' then last_label s'
      else if is_dot a then s' else s
  end.

(** A text without the line feed that may end it. *)
Fixpoint chomp (s : list ascii) : list ascii :=
  match s with
  | [] => []
  | [a] => if is_newline a then [] else [a]
  | a :: s' => a :: chomp s'
  end.

(** What [preg] asks of a password, read off the pattern: the first line
    is all there is but for one closing line feed, and it has 8 characters
    or more, a digit, a lower-case and an upper-case letter. *)
Definition secure (s : list ascii) : bool :=
  at_eol (O, after_first_line s)
  && (8 <=? List.length (first_line s))%nat
  && existsb is_digit (first_line s)
  && existsb is_lower (first_line s)
  && existsb is_upper (first_line s).

(** The password rule in the words of the specification. *)
Definition strong (s : list ascii) : bool :=
  (8 <=? List.length s)%nat
  && existsb is_digit s && existsb is_lower s && existsb is_upper s.

(** The request of [modify_token] asks to unrevoke: [{"revoke": false}]. *)
Definition unrevoke_request (ep : Endpoint) (req : Request) : bool :=
  match ep, get_json req with
  | ModifyToken _, Some (JObj items) =>
      match dict_get "revoke" items with
      | Some (JBool false) => true
      | _ => false
      end
  | _, _ => false
  end.



Definition api_error (message : string) (code0 : nat) : Response :=
  jsonify (JObj [("error", JStr message)]) code0.

(** The characters of an address on either side of the [@]: word
    characters, dots and dashes. *)
Definition is_local_char (a : ascii) : bool :=
  is_word a || is_dot a || is_dash a.

(** The classes of a pattern all lie within [P]. *)
Fixpoint classes_within (P : ascii -> bool) (r : regex) : Prop :=
  match r with
  | Chr c => forall a, c a = true -> P a = true
  | Cat r1 r2 | Alt r1 r2 => classes_within P r1 /\ classes_within P r2
  | Star r' => classes_within P r'
  | Look _ | Eps | Bol | Eol => True
  end.

(** The views behind [@jwt_required]. *)
Definition protected (ep : Endpoint) : bool :=
  match ep with
  | SignUp | Login => false
  | GetTokens | ModifyToken _ | LogoutUser | PruneDb => true
  end.

Definition is_object (v : json) : bool :=
  match v with JObj _ => true | _ => false end.

Definition json_items (v : json) : list (string * json) :=
  match v with JObj items => items | _ => [] end.

Definition has_email (e : string) (us : list User) : bool :=
  existsb (fun u => String.eqb (email u) e) us.

(** ** A small instance to run the views on *)

Definition demo_lib : Lib := {|
  generate_password_hash := fun p => String.append "pbkdf2:" p;
  check_password_hash := fun h p => String.eqb h (String.append "pbkdf2:" p);
  encode_token := fun c => String.append "jwt:" (jti c);
  decode_token := fun s =>
    match s with
    | "" => None
    | _ => Some {| jti := String.substring 4 (String.length s - 4) s;
                   identity := "u-1"; type := "access"; exp := 86400 |}
    end;
  normalize_names := fun v =>
    match v with JStr s => Ok s | _ => Raise AttributeError end;
  filter_by_scalar := fun _ _ => Ok None;
  serialize_public := fun u =>
    JObj [("id", JStr (public_id u)); ("fname", JStr (fname u));
          ("lname", JStr (lname u)); ("user_picture", JNull)];
  serialize := fun j t =>
    JObj [("jti", JStr j); ("token_type", JStr (token_type t));
          ("user_identity", JStr (user_identity t));
          ("revoked", JBool (revoked t)); ("expires", JNum (expires t))]
|}.

Definition demo_env : Env := {| uuid4 := "j-2"; now := 0 |}.

Definition demo_row (u : string) (r : bool) (e : Z) : TokenBlacklist :=
  {| token_type := "access"; user_identity := u; revoked := r; expires := e |}.

Definition demo_user : User :=
  {| email := "a@b.com"; password_hash := Some "pbkdf2:Abcdef12";
     fname := "Jo"; lname := "Doe"; public_id := "u-1" |}.

(** One user, three tokens: her live one, her revoked one, and one of
    somebody else. *)
Definition demo_store : Store :=
  {| users := [demo_user];
     ledger := <["j-1" := demo_row "u-1" false 100]>
               (<["j-0" := demo_row "u-1" true 50]>
               (<["k-1" := demo_row "u-9" false 100]> ∅)) |}.

Definition demo_claims : Claims :=
  {| jti := "j-1"; identity := "u-1"; type := "access"; exp := 100 |}.

Definition demo_request (json0 : bool) (d : option json) : Request :=
  {| is_json := json0; data := d; credential := ValidToken demo_claims |}.

Definition line_feed : string := String newline EmptyString.

(** ** The matcher computes the relation *)

Lemma iterate_sound (step : mstate -> list mstate) (r : regex) :
  (forall st st', In st' (step st) -> Matches r st st') ->
  forall n st st', In st' (iterate step n st) -> Matches (Star r) st st'.
Proof.
  intros Hstep n; induction n as [|n IH]; intros st st' Hin; simpl in Hin.
  - destruct Hin as [<-|[]]; constructor.
  - destruct Hin as [<-|Hin]; [constructor|].
    apply in_flat_map in Hin as (st1 & H1 & H2).
    apply filter_In in H1 as [H1 _].
    eapply MStarS; [apply Hstep, H1 | apply IH, H2].
Qed.

Lemma run_sound (r : regex) :
  forall st st', In st' (run r st) -> Matches r st st'.
Proof.
  induction r as [|c|r1 IH1 r2 IH2|r1 IH1 r2 IH2|r IH|r IH| |];
    intros [p s] st' Hin; simpl in Hin.
  - destruct Hin as [<-|[]]; constructor.
  - destruct s as [|a s]; [destruct Hin|].
    destruct (c a) eqn:Hc; [|destruct Hin].
    destruct Hin as [<-|[]]. now constructor.
  - apply in_flat_map in Hin as (st1 & H1 & H2). eauto with regex.
  - apply in_app_or in Hin as [H|H]; eauto with regex.
  - eapply iterate_sound; eauto.
  - destruct (run r (p, s)) as [|st1 rest] eqn:E; [destruct Hin|].
    destruct Hin as [<-|[]]. apply MLook with st1, IH. rewrite E. now left.
  - destruct (at_bol (p, s)) eqn:E; [|destruct Hin].
    destruct Hin as [<-|[]]. now constructor.
  - destruct (at_eol (p, s)) eqn:E; [|destruct Hin].
    destruct Hin as [<-|[]]. now constructor.
Qed.

(** A match consumes a prefix of the text ahead and moves by its length. *)
Lemma Matches_consumes (r : regex) (st st' : mstate) :
  Matches r st st' ->
  exists w, snd st = w ++ snd st' /\ fst st' = (fst st + List.length w)%nat.
Proof.
  induction 1 as [st|c a p s Hc|r1 r2 st st1 st2 _ IH1 _ IH2| | |r st
                 |r st st1 st2 _ IH1 _ IH2| | |]; simpl in *;
    try (exists []; simpl; split; [reflexivity|lia]); auto.
  - exists [a]. simpl. split; [reflexivity|lia].
  - destruct IH1 as (w1 & E1 & P1), IH2 as (w2 & E2 & P2).
    exists (w1 ++ w2). rewrite E1, E2, P2, P1, length_app, <- app_assoc.
    split; [reflexivity|lia].
  - destruct IH1 as (w1 & E1 & P1), IH2 as (w2 & E2 & P2).
    exists (w1 ++ w2). rewrite E1, E2, P2, P1, length_app, <- app_assoc.
    split; [reflexivity|lia].
Qed.

Lemma Matches_stuck (r : regex) (st st' : mstate) :
  Matches r st st' -> shorter st st' = false -> st' = st.
Proof.
  intros HM Hs. destruct (Matches_consumes _ _ _ HM) as (w & E & P).
  unfold shorter in Hs. apply Nat.ltb_ge in Hs.
  rewrite E, length_app in Hs.
  destruct w as [|a w]; [|simpl in Hs; lia].
  destruct st, st'; simpl in *. subst. f_equal. lia.
Qed.

Lemma iterate_complete (r : regex) :
  (forall st st', Matches r st st' -> In st' (run r st)) ->
  forall st st', Matches (Star r) st st' ->
  forall n, (List.length (snd st) <= n)%nat -> In st' (iterate (run r) n st).
Proof.
  intros Hr st st' HM. remember (Star r) as r0 eqn:E.
  induction HM as [| | | | |r' st|r' st st1 st2 H1 _ H2 IH| | |];
    inversion E; subst; intros n Hn.
  - destruct n; simpl; now left.
  - destruct (shorter st st1) eqn:Hs.
    + pose proof Hs as Hlt. unfold shorter in Hlt. apply Nat.ltb_lt in Hlt.
      destruct n as [|n]; [lia|]. simpl. right.
      apply in_flat_map. exists st1. split.
      * apply filter_In. split; [apply Hr, H1 | exact Hs].
      * apply IH; [reflexivity | lia].
    + rewrite (Matches_stuck _ _ _ H1 Hs) in IH. apply IH; [reflexivity|exact Hn].
Qed.

Lemma run_complete (r : regex) :
  forall st st', Matches r st st' -> In st' (run r st).
Proof.
  induction r as [|c|r1 IH1 r2 IH2|r1 IH1 r2 IH2|r IH|r IH| |];
    intros st st' HM.
  - inversion HM; subst. now left.
  - inversion HM; subst. simpl. rewrite H0. now left.
  - inversion HM; subst. simpl. apply in_flat_map. eauto.
  - inversion HM; subst; simpl; apply in_or_app; eauto.
  - simpl. apply iterate_complete; auto.
  - inversion HM; subst. simpl.
    apply IH in H0. destruct (run r st'); [destruct H0 | now left].
  - inversion HM; subst. simpl. rewrite H. now left.
  - inversion HM; subst. simpl. rewrite H. now left.
Qed.

Lemma re_search_spec (r : regex) (s : string) :
  re_search r s = true <->
  exists i st', (i <= List.length (list_ascii_of_string s))%nat
    /\ Matches r (i, skipn i (list_ascii_of_string s)) st'.
Proof.
  unfold re_search. rewrite existsb_exists. split.
  - intros (i & Hi & Hm). apply in_seq in Hi. unfold matches_at in Hm.
    destruct (run r _) as [|st' rest] eqn:E; [discriminate|].
    exists i, st'. split; [lia|]. apply run_sound. rewrite E. now left.
  - intros (i & st' & Hi & HM). exists i. split; [apply in_seq; lia|].
    unfold matches_at. apply run_complete in HM.
    destruct (run r _); [destruct HM | reflexivity].
Qed.

(** A pattern that opens with [^] is looked for at position 0 only. *)
Lemma re_search_anchored (r : regex) (s : string) :
  re_search (Cat Bol r) s = true <->
  exists st', Matches r (O, list_ascii_of_string s) st'.
Proof.
  rewrite re_search_spec. split.
  - intros (i & st' & _ & HM). inversion HM; subst.
    match goal with H : Matches Bol _ _ |- _ => inversion H; subst end.
    match goal with H : at_bol _ = true |- _ =>
      unfold at_bol in H; simpl in H; apply Nat.eqb_eq in H; subst i end.
    eauto.
  - intros (st' & HM). exists O, st'. split; [lia|].
    simpl. econstructor; [now constructor | exact HM].
Qed.

(** ** Loops over one character class *)

Lemma cat_inv (r1 r2 : regex) (st st' : mstate) :
  Matches (Cat r1 r2) st st' ->
  exists st1, Matches r1 st st1 /\ Matches r2 st1 st'.
Proof. intros H. inversion H; subst. eauto. Qed.

Lemma chr_inv (c : ascii -> bool) (st st' : mstate) :
  Matches (Chr c) st st' ->
  exists a s, snd st = a :: s /\ c a = true /\ st' = (S (fst st), s).
Proof. intros H. inversion H; subst. simpl. eauto. Qed.

Lemma alt_inv (r1 r2 : regex) (st st' : mstate) :
  Matches (Alt r1 r2) st st' -> Matches r1 st st' \/ Matches r2 st st'.
Proof. intros H. inversion H; subst; auto. Qed.

Lemma eps_inv (st st' : mstate) : Matches Eps st st' -> st' = st.
Proof. intros H. now inversion H. Qed.

Lemma look_inv (r : regex) (st st' : mstate) :
  Matches (Look r) st st' -> st' = st /\ exists st1, Matches r st st1.
Proof. intros H. inversion H; subst. eauto. Qed.

Lemma eol_inv (st st' : mstate) :
  Matches Eol st st' -> st' = st /\ at_eol st = true.
Proof. intros H. inversion H; subst. auto. Qed.

Lemma star_chr_inv (c : ascii -> bool) (st st' : mstate) :
  Matches (Star (Chr c)) st st' ->
  exists w, snd st = w ++ snd st' /\ forallb c w = true
            /\ fst st' = (fst st + List.length w)%nat.
Proof.
  intros HM. remember (Star (Chr c)) as r eqn:E.
  induction HM as [| | | | |r' st|r' st st1 st2 H1 _ H2 IH| | |];
    inversion E; subst.
  - exists []. simpl. split; [reflexivity|]. split; [reflexivity|lia].
  - destruct (IH eq_refl) as (w & Ew & Fw & Pw).
    apply chr_inv in H1 as (a & s & Es & Ha & ->). simpl in *.
    exists (a :: w). simpl. rewrite Es, Ew, Ha, Fw, Pw.
    split; [reflexivity|]. split; [reflexivity|lia].
Qed.

Lemma star_chr_intro (c : ascii -> bool) (w : list ascii) :
  forallb c w = true ->
  forall p s, Matches (Star (Chr c)) (p, w ++ s) ((p + List.length w)%nat, s).
Proof.
  induction w as [|a w IH]; simpl; intros Hw p s.
  - rewrite Nat.add_0_r. constructor.
  - apply andb_true_iff in Hw as [Ha Hw].
    eapply MStarS; [constructor; exact Ha|].
    replace (p + S (List.length w))%nat with (S p + List.length w)%nat by lia.
    now apply IH.
Qed.

Lemma times_dot_inv (n : nat) :
  forall st st', Matches (times n dot) st st' ->
  exists w, snd st = w ++ snd st' /\ List.length w = n /\ forallb is_any w = true.
Proof.
  induction n as [|n IH]; simpl; intros st st' HM.
  - apply eps_inv in HM as ->. exists []. auto.
  - apply cat_inv in HM as (st1 & H1 & H2).
    apply IH in H2 as (w & Ew & Lw & Fw).
    apply chr_inv in H1 as (a & s & Es & Ha & ->). simpl in *.
    exists (a :: w). simpl. rewrite Es, Ew, Ha, Fw, Lw. auto.
Qed.

Lemma times_dot_intro (w : list ascii) :
  forallb is_any w = true ->
  forall p s, Matches (times (List.length w) dot) (p, w ++ s)
                      ((p + List.length w)%nat, s).
Proof.
  induction w as [|a w IH]; simpl; intros Hw p s.
  - rewrite Nat.add_0_r. constructor.
  - apply andb_true_iff in Hw as [Ha Hw].
    eapply MCat; [constructor; exact Ha|].
    replace (p + S (List.length w))%nat with (S p + List.length w)%nat by lia.
    now apply IH.
Qed.

(** ** Lines *)

Lemma first_line_split (s : list ascii) :
  s = first_line s ++ after_first_line s.
Proof.
  induction s as [|a s IH]; simpl; [reflexivity|].
  destruct (is_newline a); simpl; [reflexivity | now f_equal].
Qed.

Lemma first_line_any (s : list ascii) : forallb is_any (first_line s) = true.
Proof.
  induction s as [|a s IH]; simpl; [reflexivity|].
  destruct (is_newline a) eqn:E; simpl; [reflexivity|].
  unfold is_any. now rewrite E.
Qed.

Lemma first_line_app (w s : list ascii) :
  forallb is_any w = true ->
  first_line (w ++ s) = w ++ first_line s
  /\ after_first_line (w ++ s) = after_first_line s.
Proof.
  induction w as [|a w IH]; simpl; intros Hw; [auto|].
  apply andb_true_iff in Hw as [Ha Hw]. unfold is_any in Ha.
  destruct (is_newline a); [discriminate|].
  destruct (IH Hw) as [-> ->]. auto.
Qed.

Lemma at_eol_lines (p : nat) (s : list ascii) :
  at_eol (p, s) = true -> first_line s = [] /\ after_first_line s = s.
Proof.
  unfold at_eol; simpl. destruct s as [|a [|b s]]; simpl; intros H;
    [auto | rewrite H; auto | discriminate].
Qed.

Lemma no_newline_first_line (s : list ascii) :
  existsb is_newline s = false -> first_line s = s /\ after_first_line s = [].
Proof.
  induction s as [|a s IH]; simpl; [auto|]. intros H.
  apply orb_false_iff in H as [Ha Hs]. rewrite Ha.
  destruct (IH Hs) as [-> ->]. auto.
Qed.

(** The classes [\d], [[a-z]], [[A-Z]] and [\w] hold no line feed, and
    [\w] holds no dot. *)
Lemma class_facts (a : ascii) :
  (is_digit a = true -> is_any a = true)
  /\ (is_lower a = true -> is_any a = true)
  /\ (is_upper a = true -> is_any a = true)
  /\ (is_word a = true -> is_newline a = false /\ is_dot a = false).
Proof.
  destruct a as [b0 b1 b2 b3 b4 b5 b6 b7].
  destruct b0, b1, b2, b3, b4, b5, b6, b7; vm_compute;
    repeat split; solve [reflexivity | discriminate].
Qed.

(** [(?=.*X)] for a class [X] without the line feed: an [X] on this line. *)
Lemma look_class (X : ascii -> bool) (st : mstate) :
  (forall a, X a = true -> is_any a = true) ->
  (exists st', Matches (Cat (Star dot) (Chr X)) st st')
  <-> existsb X (first_line (snd st)) = true.
Proof.
  intros HX. destruct st as [p s]. simpl. split.
  - intros (st' & HM). apply cat_inv in HM as (st1 & H1 & H2).
    apply star_chr_inv in H1 as (w & Ew & Fw & _).
    apply chr_inv in H2 as (a & s0 & Es & Ha & _). simpl in *. subst s.
    rewrite Es. destruct (first_line_app w (a :: s0) Fw) as [-> _]. simpl.
    pose proof (HX a Ha) as Hn. unfold is_any in Hn.
    destruct (is_newline a); [discriminate|].
    rewrite existsb_app. simpl. rewrite Ha. apply orb_true_iff. right. reflexivity.
  - intros H. apply existsb_exists in H as (a & Hin & Ha).
    apply in_split in Hin as (w & rest & E).
    pose proof (first_line_any s) as Hany. rewrite E, forallb_app in Hany.
    apply andb_true_iff in Hany as [Hw _].
    rewrite (first_line_split s), E, <- app_assoc. simpl.
    eexists. eapply MCat; [apply (star_chr_intro _ w Hw)|]. now constructor.
Qed.

(** [(?=.{8,})]: 8 characters or more on this line. *)
Lemma look_eight (st : mstate) :
  (exists st', Matches (Cat (times 8 dot) (Star dot)) st st')
  <-> (8 <= List.length (first_line (snd st)))%nat.
Proof.
  destruct st as [p s]. simpl. split.
  - intros (st' & HM). apply cat_inv in HM as (st1 & H1 & _).
    apply (times_dot_inv 8) in H1 as (w & Ew & Lw & Fw). simpl in Ew. subst s.
    destruct (first_line_app w (snd st1) Fw) as [-> _]. rewrite length_app. lia.
  - intros H. pose proof (first_line_any s) as Hany.
    rewrite <- (firstn_skipn 8 (first_line s)), forallb_app in Hany.
    apply andb_true_iff in Hany as [H8 Hrest].
    assert (L8 : List.length (firstn 8 (first_line s)) = 8%nat)
      by (apply firstn_length_le; exact H).
    pose proof (times_dot_intro _ H8 p
                  (skipn 8 (first_line s) ++ after_first_line s)) as M8.
    rewrite L8, app_assoc, firstn_skipn, <- first_line_split in M8.
    pose proof (star_chr_intro _ _ Hrest (p + 8)%nat (after_first_line s)) as MS.
    eexists. eapply MCat; [exact M8|].
    exact MS.
Qed.

(** ** The password pattern *)

Lemma preg_secure (s : string) :
  re_search preg s = true <-> secure (list_ascii_of_string s) = true.
Proof.
  unfold preg, secure. rewrite re_search_anchored.
  set (l := list_ascii_of_string s). clearbody l. split.
  - intros (st' & HM).
    apply cat_inv in HM as (st0 & HS0 & HM).
    apply cat_inv in HM as (? & [-> L8]%look_inv & HM).
    apply cat_inv in HM as (? & [-> Ld]%look_inv & HM).
    apply cat_inv in HM as (? & [-> Ll]%look_inv & HM).
    apply cat_inv in HM as (? & [-> Lu]%look_inv & HM).
    apply cat_inv in HM as (st2 & HS1 & [-> H0]%eol_inv).
    apply star_chr_inv in HS0 as (w0 & E0 & F0 & _).
    apply star_chr_inv in HS1 as (w1 & E1 & F1 & _).
    destruct st0 as [p1 s1], st2 as [p2 s2]. cbn [fst snd] in *. subst.
    destruct (at_eol_lines _ _ H0) as [FL AL].
    destruct (first_line_app w1 s2 F1) as [FL1 AL1].
    rewrite FL, app_nil_r in FL1. rewrite AL in AL1.
    destruct (first_line_app w0 (w1 ++ s2) F0) as [-> ->].
    rewrite FL1, AL1.
    assert (H8 : (8 <= List.length w1)%nat).
    { rewrite <- FL1. apply (look_eight (p1, w1 ++ s2)). exact L8. }
    assert (Hd : existsb is_digit w1 = true).
    { rewrite <- FL1. apply (look_class is_digit (p1, w1 ++ s2));
        [intros a; apply class_facts | assumption]. }
    assert (Hl : existsb is_lower w1 = true).
    { rewrite <- FL1. apply (look_class is_lower (p1, w1 ++ s2));
        [intros a; apply class_facts | assumption]. }
    assert (Hu : existsb is_upper w1 = true).
    { rewrite <- FL1. apply (look_class is_upper (p1, w1 ++ s2));
        [intros a; apply class_facts | assumption]. }
    rewrite !existsb_app, Hd, Hl, Hu, !orb_true_r, !andb_true_r, length_app.
    apply andb_true_iff. split; [exact H0 | apply Nat.leb_le; lia].
  - intros H. repeat (apply andb_true_iff in H as [H ?]).
    apply Nat.leb_le in H3.
    destruct (proj2 (look_eight (O, l)) H3) as (s8 & M8).
    destruct (proj2 (look_class is_digit (O, l)
                (fun a => proj1 (class_facts a))) H2) as (sd & Md).
    destruct (proj2 (look_class is_lower (O, l)
                (fun a => proj1 (proj2 (class_facts a)))) H1) as (sl & Ml).
    destruct (proj2 (look_class is_upper (O, l)
                (fun a => proj1 (proj2 (proj2 (class_facts a))))) H0) as (su & Mu).
    eexists. eapply MCat; [apply MStar0|].
    eapply MCat; [eapply MLook, M8|].
    eapply MCat; [eapply MLook, Md|].
    eapply MCat; [eapply MLook, Ml|].
    eapply MCat; [eapply MLook, Mu|].
    rewrite (first_line_split l) at 1.
    eapply MCat; [apply (star_chr_intro _ _ (first_line_any l))|].
    constructor. exact H.
Qed.

Lemma secure_strong (s : list ascii) :
  existsb is_newline s = false -> secure s = strong s.
Proof.
  intros H. unfold secure, strong.
  destruct (no_newline_first_line s H) as [-> ->]. reflexivity.
Qed.

(** ** The email pattern *)

Lemma star_last (r : regex) (st st' : mstate) :
  Matches (Star r) st st' ->
  st' = st \/ exists st1, Matches (Star r) st st1 /\ Matches r st1 st'.
Proof.
  intros HM. remember (Star r) as r0 eqn:E.
  induction HM as [| | | | |r' st|r' st st1 st2 H1 _ H2 IH| | |];
    inversion E; subst.
  - now left.
  - right. destruct (IH eq_refl) as [->|(x & Hx & Hr)].
    + exists st. split; [constructor | exact H1].
    + exists x. split; [eapply MStarS; eauto | exact Hr].
Qed.

(** The last round of [r+] starts somewhere in the text ahead. *)
Lemma plus_last (r : regex) (st st' : mstate) :
  Matches (plus r) st st' ->
  exists st1, (exists w, snd st = w ++ snd st1) /\ Matches r st1 st'.
Proof.
  intros HM. apply cat_inv in HM as (sta & Hr & Hs).
  apply star_last in Hs as [->|(x & Hx & Hl)].
  - exists st. split; [exists []; reflexivity | exact Hr].
  - exists x. split; [|exact Hl].
    apply Matches_consumes in Hr as (w1 & E1 & _).
    apply Matches_consumes in Hx as (w2 & E2 & _).
    exists (w1 ++ w2). rewrite E1, E2. apply app_assoc.
Qed.

Lemma word_inv (st st' : mstate) :
  Matches word st st' ->
  exists a, snd st = a :: snd st' /\ is_word a = true.
Proof.
  intros HM. apply chr_inv in HM as (a & s & E & Ha & ->). eauto.
Qed.

(** [\.\w{2,3}]: a dot and two or three word characters. *)
Lemma tld_inv (st st' : mstate) :
  Matches tld st st' ->
  exists d lab, snd st = d :: lab ++ snd st' /\ is_dot d = true
    /\ forallb is_word lab = true
    /\ (2 <= List.length lab <= 3)%nat.
Proof.
  intros HM. apply cat_inv in HM as (s1 & Hd & HM).
  apply chr_inv in Hd as (d & t & E & Hd & ->).
  apply cat_inv in HM as (s2 & (a & Ea & Ha)%word_inv & HM).
  apply cat_inv in HM as (s3 & (b & Eb & Hb)%word_inv & HM).
  cbn [fst snd] in *. exists d.
  apply alt_inv in HM as [(c & Ec & Hc)%word_inv | ->%eps_inv].
  - exists [a; b; c]. rewrite E, Ea, Eb, Ec. simpl. rewrite Ha, Hb, Hc.
    repeat split; auto.
  - exists [a; b]. rewrite E, Ea, Eb. simpl. rewrite Ha, Hb.
    repeat split; auto.
Qed.

Lemma ereg_inv (s : string) :
  re_search ereg s = true ->
  exists pre d lab tail,
    list_ascii_of_string s = pre ++ d :: lab ++ tail
    /\ is_dot d = true /\ forallb is_word lab = true
    /\ (2 <= List.length lab <= 3)%nat /\ at_eol (O, tail) = true.
Proof.
  unfold ereg. rewrite re_search_anchored. intros (st' & HM).
  apply cat_inv in HM as (s1 & (w1 & E1 & _)%Matches_consumes & HM).
  apply cat_inv in HM as (s2 & (w2 & E2 & _)%Matches_consumes & HM).
  apply cat_inv in HM as (s3 & (w3 & E3 & _)%Matches_consumes & HM).
  apply cat_inv in HM as (s4 & (w4 & E4 & _)%Matches_consumes & HM).
  apply cat_inv in HM as (s5 & (w5 & E5 & _)%Matches_consumes & HM).
  apply cat_inv in HM as (s6 & Hp & [-> He]%eol_inv).
  apply plus_last in Hp as (sx & (w6 & E6) & Ht).
  apply tld_inv in Ht as (d & lab & Et & Hd & Hl & Hn).
  cbn [fst snd] in *.
  exists (w1 ++ w2 ++ w3 ++ w4 ++ w5 ++ w6), d, lab, (snd s6).
  rewrite E1, E2, E3, E4, E5, E6, Et, <- !app_assoc.
  repeat split; auto; lia.
Qed.

Lemma last_label_app (pre lab : list ascii) (d : ascii) :
  is_dot d = true -> existsb is_dot lab = false ->
  last_label (pre ++ d :: lab) = lab.
Proof.
  intros Hd Hl. induction pre as [|a pre IH]; simpl.
  - now rewrite Hl, Hd.
  - rewrite existsb_app. simpl. rewrite Hd, orb_true_r. exact IH.
Qed.

Lemma chomp_label (lab tail : list ascii) :
  forallb is_word lab = true -> at_eol (O, tail) = true ->
  chomp (lab ++ tail) = lab /\ existsb is_dot (lab ++ tail) = false.
Proof.
  intros Hl Ht. unfold at_eol in Ht. cbn [snd] in Ht.
  induction lab as [|a lab IH].
  - destruct tail as [|n [|]]; [auto | | discriminate].
    cbn [app chomp existsb]. rewrite Ht. split; [reflexivity|].
    unfold is_newline in Ht. apply Nat.eqb_eq in Ht.
    unfold is_dot. rewrite Ht. reflexivity.
  - cbn [forallb] in Hl. apply andb_true_iff in Hl as [Ha Hl].
    destruct (IH Hl) as [IH1 IH2].
    destruct (proj2 (proj2 (proj2 (class_facts a))) Ha) as [Hn Hd].
    cbn [app existsb]. rewrite IH2, Hd. split; [|reflexivity].
    destruct (lab ++ tail) as [|b rest] eqn:E.
    + apply app_eq_nil in E as [-> _]. cbn [chomp]. now rewrite Hn.
    + cbn [chomp]. cbn [chomp] in IH1. now rewrite IH1.
Qed.

(** What [ereg] leaves for the last label of an accepted address. *)
Lemma ereg_last_label (s : string) :
  re_search ereg s = true ->
  (2 <= List.length (chomp (last_label (list_ascii_of_string s))) <= 3)%nat
  /\ forallb is_word (chomp (last_label (list_ascii_of_string s))) = true.
Proof.
  intros H. apply ereg_inv in H as (pre & d & lab & tail & E & Hd & Hl & Hn & Ht).
  destruct (chomp_label lab tail Hl Ht) as [Hc Hx].
  rewrite E, (last_label_app pre (lab ++ tail) d Hd Hx), Hc. auto.
Qed.

(** ** The token ledger *)

Lemma bearer_Valid (req : Request) (c : Claims) :
  bearer req = Some c -> credential req = ValidToken c.
Proof.
  unfold bearer. destruct (credential req); intros E; try discriminate.
  now injection E as ->.
Qed.

(** C1. The revocation predicate answers true for a [jti] that the ledger
    does not hold, and otherwise the stored [revoked] flag of the entry
    with that [jti]. *)
Theorem check_if_token_revoked_fail_closed (decoded_token : Claims) (st : Store) :
  (ledger st !! jti decoded_token = None ->
   check_if_token_revoked decoded_token st = true)
  /\ (forall t, ledger st !! jti decoded_token = Some t ->
      check_if_token_revoked decoded_token st = revoked t).
Proof.
  unfold check_if_token_revoked, is_token_revoked. split.
  - intros ->. reflexivity.
  - intros t ->. reflexivity.
Qed.

Lemma check_if_token_revoked_witness :
  check_if_token_revoked
    {| jti := "forged"; identity := "u-1"; type := "access"; exp := 100 |}
    demo_store = true
  /\ check_if_token_revoked
       {| jti := "j-0"; identity := "u-1"; type := "access"; exp := 50 |}
       demo_store = revoked (demo_row "u-1" true 50).
Proof.
  split.
  - apply (proj1 (check_if_token_revoked_fail_closed
                    {| jti := "forged"; identity := "u-1"; type := "access";
                       exp := 100 |} demo_store)).
    vm_compute. reflexivity.
  - apply (proj2 (check_if_token_revoked_fail_closed
                    {| jti := "j-0"; identity := "u-1"; type := "access";
                       exp := 50 |} demo_store)).
    vm_compute. reflexivity.
Defined.

Lemma prune_database_lookup (now0 : Z) (l : gmap string TokenBlacklist)
    (j : string) :
  prune_database now0 l !! j =
  match l !! j with
  | Some t => if decide (expires t < now0)%Z then None else Some t
  | None => None
  end.
Proof.
  unfold prune_database. destruct (l !! j) as [t|] eqn:E.
  - destruct (decide (expires t < now0)%Z) as [Hlt|Hge].
    + apply map_lookup_filter_None. right. intros t' E'.
      rewrite E in E'. injection E' as <-. simpl. tauto.
    + apply map_lookup_filter_Some. split; [exact E | exact Hge].
  - apply map_lookup_filter_None. left. exact E.
Qed.

(** C9. Pruning at [now] deletes exactly the entries with [expires < now],
    whatever their [revoked] flag, and keeps every entry with
    [expires >= now] as it is; the view prunes at the time of the call. *)
Theorem prune_deletes_exactly_expired (env : Env) (req : Request) (st : Store)
    (c : Claims) :
  (forall now0 l j t, l !! j = Some t ->
     ((expires t < now0)%Z -> prune_database now0 l !! j = None)
     /\ ((now0 <= expires t)%Z -> prune_database now0 l !! j = Some t))
  /\ (forall now0 l j, l !! j = None -> prune_database now0 l !! j = None)
  /\ (bearer req = Some c -> check_if_token_revoked c st = false ->
      prune_db env req st =
        (Ok (jsonify (JObj [("success", JStr "db pruned correctly")]) 200),
         with_ledger st (prune_database (now env) (ledger st)))).
Proof.
  split; [|split].
  - intros now0 l j t E. rewrite prune_database_lookup, E.
    split; intros Hx; destruct (decide _); try reflexivity; lia.
  - intros now0 l j E. rewrite prune_database_lookup, E. reflexivity.
  - intros Hb Hc. unfold prune_db, jwt_required.
    rewrite (bearer_Valid _ _ Hb), Hc. reflexivity.
Qed.

Lemma prune_witness :
  prune_database 100 (ledger demo_store) !! "j-0" = None
  /\ prune_database 100 (ledger demo_store) !! "j-1"
     = Some (demo_row "u-1" false 100).
Proof.
  pose proof (prune_deletes_exactly_expired demo_env
                (demo_request true None) demo_store demo_claims) as [H _].
  split.
  - apply (proj1 (H 100%Z (ledger demo_store) "j-0" (demo_row "u-1" true 50)
                    ltac:(vm_compute; reflexivity))).
    vm_compute. reflexivity.
  - apply (proj2 (H 100%Z (ledger demo_store) "j-1" (demo_row "u-1" false 100)
                    ltac:(vm_compute; reflexivity))).
    vm_compute. discriminate.
Defined.

Lemma set_revoked_true_id (t : TokenBlacklist) :
  revoked t = true -> set_revoked true t = t.
Proof. destruct t as [ty u r e]. simpl. intros ->. reflexivity. Qed.

Lemma logout_everywhere_lookup (u : string) (l : gmap string TokenBlacklist)
    (j : string) :
  logout_everywhere u l !! j =
  match l !! j with
  | Some t => Some (if decide (user_identity t = u) then set_revoked true t else t)
  | None => None
  end.
Proof.
  unfold logout_everywhere, active_tokens.
  rewrite lookup_union, lookup_fmap.
  destruct (l !! j) as [t|] eqn:E.
  - destruct (decide (user_identity t = u)) as [Hu|Hu].
    + destruct (revoked t) eqn:Hr.
      * rewrite (proj2 (map_lookup_filter_None _ l j)).
        -- simpl. now rewrite set_revoked_true_id.
        -- right. intros t' E' [_ Hr']. rewrite E in E'. injection E' as <-.
           simpl in Hr'. congruence.
      * rewrite (proj2 (map_lookup_filter_Some _ l j t)); [reflexivity|].
        split; [exact E | split; assumption].
    + rewrite (proj2 (map_lookup_filter_None _ l j)); [reflexivity|].
      right. intros t' E' [Hu' _]. rewrite E in E'. injection E' as <-.
      simpl in Hu'. contradiction.
  - rewrite (proj2 (map_lookup_filter_None _ l j)); [reflexivity|].
    left. exact E.
Qed.



(** Three active tokens and a revoked one: all four end up revoked, and a
    second call has no row left to change. *)
Example logout_three_of_four :
  let l : gmap string TokenBlacklist :=
    <["a" := demo_row "u" false 9]> (<["b" := demo_row "u" false 9]>
    (<["c" := demo_row "u" false 9]> (<["d" := demo_row "u" true 9]> ∅))) in
  size (active_tokens "u" l) = 3%nat
  /\ (revoked <$> logout_everywhere "u" l)
     = <["a" := true]> (<["b" := true]> (<["c" := true]> (<["d" := true]> ∅)))
  /\ size (active_tokens "u" (logout_everywhere "u" l)) = 0%nat.
Proof. vm_compute. repeat split; reflexivity. Qed.

(** ** What each view does to the ledger *)

Lemma sign_up_ledger `{Lib} (env : Env) (req : Request) (st : Store) :
  ledger (snd (sign_up env req st)) = ledger st.
Proof. unfold sign_up. repeat case_match; reflexivity. Qed.

Lemma login_ledger `{Lib} (env : Env) (req : Request) (st : Store) :
  ledger (snd (login env req st)) = ledger st
  \/ exists j t, ledger st !! j = None
       /\ ledger (snd (login env req st)) = <[j := t]> (ledger st).
Proof.
  unfold login. repeat case_match; try (left; reflexivity).
  right. unfold add_token_to_database in *. repeat case_match; try discriminate.
  simplify_eq. eauto.
Qed.

Lemma toggle_true_ledger (token_id u : string) (l l' : gmap string TokenBlacklist) :
  revoke_token token_id u l = Ok l' ->
  exists t, l !! token_id = Some t /\ l' = <[token_id := set_revoked true t]> l.
Proof.
  unfold revoke_token, toggle. intros H. repeat case_match; try discriminate.
  simplify_eq. eauto.
Qed.

Lemma modify_token_ledger (token_id : string) (env : Env) (req : Request)
    (st : Store) :
  unrevoke_request (ModifyToken token_id) req = false ->
  ledger (snd (modify_token token_id env req st)) = ledger st
  \/ exists t, ledger st !! token_id = Some t
       /\ ledger (snd (modify_token token_id env req st))
          = <[token_id := set_revoked true t]> (ledger st).
Proof.
  unfold unrevoke_request, modify_token, jwt_required, py_get. intros Hu.
  repeat case_match; simplify_eq; try (left; reflexivity); try discriminate.
  right. eapply toggle_true_ledger; eassumption.
Qed.

(** No view but the unrevoke of [modify_token] takes a revoked entry back:
    an entry that stays in the ledger stays as it was or gets revoked. *)
Lemma view_ledger_step `{Lib} (ep : Endpoint) (env : Env) (req : Request)
    (st : Store) (j : string) (t t' : TokenBlacklist) :
  unrevoke_request ep req = false ->
  ledger st !! j = Some t ->
  ledger (snd (view_of ep env req st)) !! j = Some t' ->
  t' = t \/ t' = set_revoked true t.
Proof.
  intros Hu E E'. destruct ep as [| | |token_id| |]; cbn [view_of] in E'.
  - rewrite sign_up_ledger in E'. left. congruence.
  - destruct (login_ledger env req st) as [Hl|(j0 & t0 & Hn & Hl)];
      rewrite Hl in E'; [left; congruence|].
    rewrite lookup_insert_ne in E' by congruence. left. congruence.
  - unfold get_tokens, jwt_required in E'.
    repeat case_match; simpl in E'; left; congruence.
  - destruct (modify_token_ledger token_id env req st Hu) as [Hl|(t0 & E0 & Hl)];
      rewrite Hl in E'; [left; congruence|].
    destruct (decide (token_id = j)) as [->|Hne].
    + rewrite lookup_insert_eq in E'. right. congruence.
    + rewrite lookup_insert_ne in E' by exact Hne. left. congruence.
  - unfold logout_user, jwt_required in E'.
    repeat case_match; simpl in E'; try (left; congruence).
    rewrite logout_everywhere_lookup, E in E'. injection E' as <-.
    destruct (decide _); auto.
  - unfold prune_db, jwt_required in E'.
    repeat case_match; simpl in E'; try (left; congruence).
    rewrite prune_database_lookup, E in E'.
    destruct (decide _); [discriminate | left; congruence].
Qed.

(** C3. Under every operation but the unrevoke of the toggle endpoint
    ([revoke] false), an entry that was revoked is still revoked as long as
    it is in the ledger; logging out everywhere, in particular, never takes
    an entry from revoked back to active. *)
Theorem revoked_is_one_way `{Lib} (ep : Endpoint) (env : Env) (req : Request)
    (st : Store) (j : string) (t t' : TokenBlacklist) :
  (unrevoke_request ep req = false ->
   ledger st !! j = Some t ->
   ledger (snd (serve ep env req st)) !! j = Some t' ->
   revoked t = true -> revoked t' = true)
  /\ (forall u, ledger st !! j = Some t ->
      logout_everywhere u (ledger st) !! j = Some t' ->
      revoked t = true -> revoked t' = true).
Proof.
  split.
  - intros Hu E E' Hr. unfold serve in E'.
    destruct (view_of ep env req st) as [r st'] eqn:Ev. simpl in E'.
    assert (E2 : ledger (snd (view_of ep env req st)) !! j = Some t')
      by (rewrite Ev; exact E').
    destruct (view_ledger_step ep env req st j t t' Hu E E2) as [->| ->];
      [exact Hr | reflexivity].
  - intros u E E' Hr. rewrite logout_everywhere_lookup, E in E'.
    injection E' as <-. destruct (decide _); [reflexivity | exact Hr].
Qed.

Lemma revoked_is_one_way_witness :
  revoked (demo_row "u-1" true 50) = true.
Proof.
  refine (proj1 (revoked_is_one_way (H := demo_lib) LogoutUser demo_env
                   (demo_request true None) demo_store "j-0"
                   (demo_row "u-1" true 50) (demo_row "u-1" true 50))
                _ _ _ _);
    vm_compute; reflexivity.
Defined.


(** ** The toggle endpoint *)





(** ** Logout *)

(** C5, as the code has it. With a valid bearer token that is not revoked,
    a request with a JSON content type is answered 200
    [{"success": "user logged out"}] and logs the caller out everywhere; one
    without a JSON content type is answered 400
    [{"error": "JSON request only"}] and changes nothing. A missing, an
    expired or a revoked token is answered 401, an invalid one 422, and
    neither changes anything. *)
Theorem logout_user_outcomes (env : Env) (req : Request) (st : Store) :
  match credential req with
  | NoToken | ExpiredToken =>
      status (respond (fst (logout_user env req st))) = 401%nat
      /\ snd (logout_user env req st) = st
  | InvalidToken =>
      status (respond (fst (logout_user env req st))) = 422%nat
      /\ snd (logout_user env req st) = st
  | ValidToken c =>
      if check_if_token_revoked c st
      then status (respond (fst (logout_user env req st))) = 401%nat
           /\ snd (logout_user env req st) = st
      else if is_json req
      then logout_user env req st
           = (Ok (jsonify (JObj [("success", JStr "user logged out")]) 200),
              with_ledger st (logout_everywhere (identity c) (ledger st)))
      else respond (fst (logout_user env req st))
           = api_error "JSON request only" 400
           /\ snd (logout_user env req st) = st
  end.
Proof.
  unfold logout_user, jwt_required.
  destruct (credential req) as [| | |c]; try (split; reflexivity).
  destruct (check_if_token_revoked c st); [split; reflexivity|].
  destruct (is_json req); [reflexivity | split; reflexivity].
Qed.

(** A request with a valid token, no body and no JSON content type is
    answered 400. *)
Lemma logout_without_json_content_type :
  bearer (demo_request false None) = Some demo_claims
  /\ check_if_token_revoked demo_claims demo_store = false
  /\ data (demo_request false None) = None
  /\ respond (fst (logout_user demo_env (demo_request false None) demo_store))
     = api_error "JSON request only" 400.
Proof. vm_compute. repeat split; reflexivity. Qed.

(** ** Sign-up *)

Lemma get_json_Some (req : Request) (b : json) :
  get_json req = Some b -> is_json req = true /\ data req = Some b.
Proof. unfold get_json. destruct (is_json req); [auto | discriminate]. Qed.

Lemma field_present (k missing : string) (items : list (string * json))
    (v : json) :
  dict_get k items = Some v -> field k missing (JObj items) = Ok v.
Proof.
  intros E. unfold field, py_contains, py_getitem. cbn [bind]. rewrite E.
  rewrite bool_decide_eq_true_2 by eauto. reflexivity.
Qed.

Lemma commit_user_taken (u u0 : User) (us : list User) :
  email u0 = email u -> commit_user u (us ++ [u0]) = Raise IntegrityError.
Proof.
  intros E. unfold commit_user. rewrite existsb_app. cbn [existsb].
  rewrite E, String.eqb_refl, orb_true_r. reflexivity.
Qed.

(** C6. A valid sign-up for an email that no user has adds exactly one row,
    the new user, and answers 201; any later sign-up with that email is
    answered 400 and leaves the store as it was; and no sign-up that is not
    answered 201 changes the store. *)
Theorem sign_up_once `{Lib} (env : Env) (req : Request) (st : Store)
    (e p f l : string) :
  sign_up_fields req = Ok (JStr e, JStr p, f, l) ->
  existsb (fun u => String.eqb (email u) e) (users st) = false ->
  let st1 := {| users := users st ++ [new_User e p f l (uuid4 env)];
                ledger := ledger st |} in
  serve SignUp env req st
    = (jsonify (JObj [("success", JStr "created")]) 201, st1)
  /\ List.length (users st1) = S (List.length (users st))
  /\ (forall env' req' p' f' l',
        sign_up_fields req' = Ok (JStr e, JStr p', f', l') ->
        serve SignUp env' req' st1
          = (api_error "user already created - login instead" 400, st1))
  /\ (forall env' req' st',
        status (fst (serve SignUp env' req' st')) <> 201%nat ->
        snd (serve SignUp env' req' st') = st').
Proof.
  intros Hf Hnew st1. repeat split.
  - unfold serve, view_of, sign_up, commit_user. rewrite Hf.
    cbn [email new_User]. rewrite Hnew. reflexivity.
  - unfold st1. cbn [users]. rewrite length_app. simpl. lia.
  - intros env' req' p' f' l' Hf'. unfold serve, view_of, sign_up.
    rewrite Hf'. unfold st1. cbn [users].
    rewrite commit_user_taken by reflexivity. reflexivity.
  - intros env' req' st'. unfold serve, view_of, sign_up.
    repeat case_match; simplify_eq; cbn; try reflexivity.
    intros Hx. contradiction.
Qed.

Lemma sign_up_once_witness :
  let req := {| is_json := true;
                data := Some (JObj [("email", JStr "c@d.org");
                                    ("password", JStr "Abcdef12");
                                    ("fname", JStr "Jo"); ("lname", JStr "Doe")]);
                credential := NoToken |} in
  serve (L := demo_lib) SignUp demo_env req demo_store
  = (jsonify (JObj [("success", JStr "created")]) 201,
     {| users := users demo_store
                 ++ [new_User (L := demo_lib) "c@d.org" "Abcdef12" "Jo" "Doe" "j-2"];
        ledger := ledger demo_store |}).
Proof.
  intros req.
  refine (proj1 (sign_up_once (H := demo_lib) demo_env req demo_store
                   "c@d.org" "Abcdef12" "Jo" "Doe" _ _));
    vm_compute; reflexivity.
Defined.

Lemma sign_up_fields_email (req : Request) (items : list (string * json))
    (e : string) :
  get_json req = Some (JObj items) ->
  dict_get "email" items = Some (JStr e) ->
  re_search ereg e = false ->
  forall `{Lib}, sign_up_fields req = Raise (api_exception "invalid email format" None).
Proof.
  intros Hj He Hre L. unfold sign_up_fields.
  destruct (get_json_Some _ _ Hj) as [-> _]. rewrite Hj. cbn [negb].
  rewrite (field_present _ _ _ _ He). cbn [bind checked py_re_search].
  rewrite Hre. reflexivity.
Qed.

Lemma sign_up_fields_password (req : Request) (items : list (string * json))
    (e pw : string) :
  get_json req = Some (JObj items) ->
  dict_get "email" items = Some (JStr e) ->
  dict_get "password" items = Some (JStr pw) ->
  re_search ereg e = true ->
  re_search preg pw = false ->
  forall `{Lib}, sign_up_fields req = Raise (api_exception "insecure password" None).
Proof.
  intros Hj He Hp Hre Hrp L. unfold sign_up_fields.
  destruct (get_json_Some _ _ Hj) as [-> _]. rewrite Hj. cbn [negb].
  rewrite (field_present _ _ _ _ He). cbn [bind checked py_re_search].
  rewrite Hre. cbn [negb bind].
  rewrite (field_present _ _ _ _ Hp). cbn [bind checked py_re_search].
  rewrite Hrp. reflexivity.
Qed.

Lemma secure_is_strong (s : list ascii) : secure s = true -> strong s = true.
Proof.
  unfold secure, strong. intros H.
  apply andb_true_iff in H as [H Hu]. apply andb_true_iff in H as [H Hl].
  apply andb_true_iff in H as [H Hd]. apply andb_true_iff in H as [_ H2].
  assert (Hs : forall X, existsb X (first_line s) = true -> existsb X s = true).
  { intros X HX. rewrite (first_line_split s), existsb_app, HX. reflexivity. }
  rewrite !Hs, !andb_true_r by assumption.
  apply Nat.leb_le. apply Nat.leb_le in H2.
  rewrite (first_line_split s), length_app. lia.
Qed.

(** X1. What the password check of [sign_up] accepts. The password passes
    exactly when its first line has 8 characters or more, a digit, a lower-case and an upper-case
    letter, and nothing follows that line but at most one line feed; for a
    password without a line feed that is the rule of the claim, and every
    password that passes satisfies that rule. A password that does not pass
    makes the sign-up fail with status 400 and the store untouched. *)
Theorem password_policy `{Lib} (env : Env) (req : Request) (st : Store)
    (items : list (string * json)) (e pw : string) :
  get_json req = Some (JObj items) ->
  dict_get "email" items = Some (JStr e) ->
  dict_get "password" items = Some (JStr pw) ->
  (re_search preg pw = true <-> secure (list_ascii_of_string pw) = true)
  /\ (existsb is_newline (list_ascii_of_string pw) = false ->
      (re_search preg pw = true <-> strong (list_ascii_of_string pw) = true))
  /\ (re_search preg pw = true -> strong (list_ascii_of_string pw) = true)
  /\ (re_search preg pw = false ->
      status (fst (serve SignUp env req st)) = 400%nat
      /\ snd (serve SignUp env req st) = st).
Proof.
  intros Hj He Hp.
  split; [apply preg_secure|].
  split; [intros Hn; rewrite preg_secure, secure_strong by exact Hn; tauto|].
  split; [intros Hs; apply secure_is_strong, preg_secure, Hs|].
  intros Hrp. unfold serve, view_of, sign_up.
  destruct (re_search ereg e) eqn:Hre.
  - rewrite (sign_up_fields_password req items e pw Hj He Hp Hre Hrp).
    split; reflexivity.
  - rewrite (sign_up_fields_email req items e Hj He Hre). split; reflexivity.
Qed.

Lemma password_policy_witness :
  let req := {| is_json := true;
                data := Some (JObj [("email", JStr "c@d.org");
                                    ("password", JStr "abcdefgh")]);
                credential := NoToken |} in
  status (fst (serve (L := demo_lib) SignUp demo_env req demo_store)) = 400%nat
  /\ snd (serve (L := demo_lib) SignUp demo_env req demo_store) = demo_store.
Proof.
  intros req.
  refine (proj2 (proj2 (proj2 (password_policy (H := demo_lib) demo_env req
            demo_store [("email", JStr "c@d.org"); ("password", JStr "abcdefgh")]
            "c@d.org" "abcdefgh" _ _ _))) _);
    vm_compute; reflexivity.
Defined.

(** C8 at a password with a line feed. Eight characters with a digit, a
    lower-case and an upper-case letter, the eighth being a line feed,
    satisfy the rule of the claim, and the pattern refuses them. *)
Lemma password_with_line_feed_refused :
  strong (list_ascii_of_string (String.append "Abcdef1" line_feed)) = true
  /\ re_search preg (String.append "Abcdef1" line_feed) = false.
Proof. vm_compute. split; reflexivity. Qed.

(** X2. What the email check of [sign_up] refuses. An address whose last
    dot-separated label, not counting a line feed that ends the address, is
    longer than 3 characters does not match, and the sign-up is answered 400
    [{"error": "invalid email format"}] with the store untouched. *)
Theorem email_long_last_label `{Lib} (env : Env) (req : Request) (st : Store)
    (items : list (string * json)) (e : string) :
  get_json req = Some (JObj items) ->
  dict_get "email" items = Some (JStr e) ->
  (3 < List.length (chomp (last_label (list_ascii_of_string e))))%nat ->
  re_search ereg e = false
  /\ serve SignUp env req st = (api_error "invalid email format" 400, st).
Proof.
  intros Hj He Hlen.
  assert (Hre : re_search ereg e = false).
  { destruct (re_search ereg e) eqn:E; [|reflexivity].
    apply ereg_last_label in E as [E _]. lia. }
  split; [exact Hre|]. unfold serve, view_of, sign_up.
  rewrite (sign_up_fields_email req items e Hj He Hre). reflexivity.
Qed.

Lemma email_long_last_label_witness :
  let req := {| is_json := true;
                data := Some (JObj [("email", JStr "user@example.info")]);
                credential := NoToken |} in
  re_search ereg "user@example.info" = false
  /\ serve (L := demo_lib) SignUp demo_env req demo_store
     = (api_error "invalid email format" 400, demo_store).
Proof.
  intros req.
  refine (email_long_last_label (H := demo_lib) demo_env req demo_store
            [("email", JStr "user@example.info")] "user@example.info" _ _ _);
    [reflexivity | reflexivity | vm_compute; lia].
Defined.

(** C10 at an address that ends in a line feed. Its last dot-separated
    label has four characters, the fourth being the line feed, and the
    pattern accepts the address. *)
Lemma email_with_line_feed_accepted :
  (3 < List.length (last_label (list_ascii_of_string
                                  (String.append "a@b.com" line_feed))))%nat
  /\ re_search ereg (String.append "a@b.com" line_feed) = true.
Proof. vm_compute. split; [lia | reflexivity]. Qed.

(** ** Login *)

Lemma py_getitem_Some (k : string) (items : list (string * json)) (v : json) :
  dict_get k items = Some v -> py_getitem k (JObj items) = Ok v.
Proof. intros E. unfold py_getitem. now rewrite E. Qed.

Lemma login_fields_Ok (req : Request) (items : list (string * json))
    (e p : json) :
  get_json req = Some (JObj items) ->
  dict_get "email" items = Some e ->
  dict_get "password" items = Some p ->
  login_fields req = Ok (JObj items).
Proof.
  intros Hj He Hp. unfold login_fields, present, py_contains.
  destruct (get_json_Some _ _ Hj) as [-> _]. rewrite Hj. cbn [negb bind].
  rewrite He, Hp. rewrite !bool_decide_eq_true_2 by eauto. reflexivity.
Qed.



(** ** More on the email pattern *)

Lemma Matches_within (P : ascii -> bool) (r : regex) (st st' : mstate) :
  Matches r st st' -> classes_within P r ->
  exists w, snd st = w ++ snd st' /\ forallb P w = true.
Proof.
  induction 1 as [st|c a p s Hc|r1 r2 st st1 st2 _ IH1 _ IH2
                 |r1 r2 st st' _ IH|r1 r2 st st' _ IH|r st
                 |r st st1 st2 _ IH1 _ IH2|r st st1 _ _|st Hb|st He];
    cbn [classes_within]; intros HP;
    try (exists []; split; reflexivity).
  - exists [a]. cbn [snd forallb app]. rewrite (HP a Hc). auto.
  - destruct HP as [HP1 HP2].
    destruct (IH1 HP1) as (w1 & E1 & F1), (IH2 HP2) as (w2 & E2 & F2).
    exists (w1 ++ w2). rewrite E1, E2, forallb_app, F1, F2, app_assoc. auto.
  - apply IH, HP.
  - apply IH, HP.
  - destruct (IH1 HP) as (w1 & E1 & F1), (IH2 HP) as (w2 & E2 & F2).
    exists (w1 ++ w2). rewrite E1, E2, forallb_app, F1, F2, app_assoc. auto.
Qed.

Lemma plus_word_inv (st st' : mstate) :
  Matches (plus word) st st' ->
  exists w, snd st = w ++ snd st' /\ forallb is_word w = true /\ w <> [].
Proof.
  intros HM. apply cat_inv in HM as (s1 & (a & Ea & Ha)%word_inv & HS).
  apply star_chr_inv in HS as (w & Ew & Fw & _).
  exists (a :: w). rewrite Ea, Ew. cbn [forallb app]. rewrite Ha, Fw.
  repeat split; solve [reflexivity | discriminate].
Qed.

Lemma word_is_local (a : ascii) : is_word a = true -> is_local_char a = true.
Proof. unfold is_local_char. intros ->. reflexivity. Qed.

Lemma sep_word_within : classes_within is_local_char (Star sep_word).
Proof.
  cbn [classes_within sep_word opt plus word]. repeat split; try exact word_is_local.
  intros a Ha. unfold is_local_char, is_dot_or_dash in *.
  destruct (is_word a); [reflexivity | exact Ha].
Qed.

Lemma tld_within : classes_within is_local_char (plus tld).
Proof.
  cbn [classes_within tld opt plus word]. repeat split; try exact word_is_local;
    intros a Ha; unfold is_local_char; rewrite Ha; destruct (is_word a); reflexivity.
Qed.

(** X3. An address that [ereg] accepts is a local part and a domain, both
    non-empty and made of word characters, dots and dashes only, with one
    [@] between them; after the domain comes at most one line feed. So an
    address with a second [@], a blank or a plus sign is refused. *)
Theorem ereg_shape (e : string) :
  re_search ereg e = true ->
  exists local a domain tail,
    list_ascii_of_string e = local ++ a :: domain ++ tail
    /\ is_at a = true
    /\ local <> [] /\ domain <> []
    /\ forallb is_local_char local = true
    /\ forallb is_local_char domain = true
    /\ at_eol (O, tail) = true.
Proof.
  unfold ereg. rewrite re_search_anchored. intros (st' & HM).
  apply cat_inv in HM as (s1 & (w1 & E1 & F1 & N1)%plus_word_inv & HM).
  apply cat_inv in HM as (s2 & H2 & HM).
  apply (Matches_within is_local_char) in H2 as (w2 & E2 & F2);
    [|exact sep_word_within].
  apply cat_inv in HM as (s3 & (a & t & Ea & Ha & ->)%chr_inv & HM).
  apply cat_inv in HM as (s4 & (w4 & E4 & F4 & N4)%plus_word_inv & HM).
  apply cat_inv in HM as (s5 & H5 & HM).
  apply (Matches_within is_local_char) in H5 as (w5 & E5 & F5);
    [|exact sep_word_within].
  apply cat_inv in HM as (s6 & H6 & [-> He]%eol_inv).
  apply (Matches_within is_local_char) in H6 as (w6 & E6 & F6);
    [|exact tld_within].
  cbn [fst snd] in *.
  exists (w1 ++ w2), a, (w4 ++ w5 ++ w6), (snd s6).
  rewrite E1, E2, Ea, E4, E5, E6, <- !app_assoc.
  rewrite !forallb_app, F2, F5, F6.
  assert (G1 : forallb is_local_char w1 = true).
  { apply forallb_forall. intros x Hx. apply word_is_local.
    apply (proj1 (forallb_forall _ _) F1 x Hx). }
  assert (G4 : forallb is_local_char w4 = true).
  { apply forallb_forall. intros x Hx. apply word_is_local.
    apply (proj1 (forallb_forall _ _) F4 x Hx). }
  rewrite G1, G4. repeat split; auto.
  - destruct w1; [contradiction | discriminate].
  - destruct w4; [contradiction | discriminate].
Qed.

Lemma ereg_shape_witness :
  exists local a domain tail,
    list_ascii_of_string "user@example.com" = local ++ a :: domain ++ tail
    /\ is_at a = true
    /\ local <> [] /\ domain <> []
    /\ forallb is_local_char local = true
    /\ forallb is_local_char domain = true
    /\ at_eol (O, tail) = true.
Proof. apply (ereg_shape "user@example.com"). vm_compute. reflexivity. Defined.

Lemma plus_chr_intro (c : ascii -> bool) (w : list ascii) :
  w <> [] -> forallb c w = true ->
  forall p s, Matches (plus (Chr c)) (p, w ++ s) ((p + List.length w)%nat, s).
Proof.
  destruct w as [|a w]; [contradiction|]. intros _ Hw p s.
  cbn [forallb] in Hw. apply andb_true_iff in Hw as [Ha Hw].
  eapply MCat; [constructor; exact Ha|].
  replace (p + List.length (a :: w))%nat with (S p + List.length w)%nat
    by (simpl; lia).
  now apply star_chr_intro.
Qed.

(** X4. [ereg] accepts every address of the plain shape: a local part and a
    domain name of word characters, then a dot and a last label of two or
    three word characters. *)
Theorem ereg_accepts_plain (local domain top : list ascii) :
  local <> [] -> domain <> [] ->
  forallb is_word local = true ->
  forallb is_word domain = true ->
  forallb is_word top = true ->
  (2 <= List.length top <= 3)%nat ->
  re_search ereg
    (string_of_list_ascii
       (local ++ "@"%char :: domain ++ "."%char :: top)) = true.
Proof.
  intros Nl Nd Hl Hd Ht Hn. unfold ereg. apply re_search_anchored.
  rewrite list_ascii_of_string_of_list_ascii.
  assert (Mt : forall p, exists p', Matches tld (p, "."%char :: top) (p', [])).
  { intros p. destruct top as [|a [|b [|c [|d top]]]]; simpl in Hn; try lia;
      cbn [forallb] in Ht; repeat (apply andb_true_iff in Ht as [? Ht]);
      eexists; unfold tld, opt, word.
    - eapply MCat; [now constructor|]. eapply MCat; [now constructor|].
      eapply MCat; [now constructor|]. apply MAltR. constructor.
    - eapply MCat; [now constructor|]. eapply MCat; [now constructor|].
      eapply MCat; [now constructor|]. apply MAltL. now constructor. }
  destruct (Mt (S (0 + List.length local) + List.length domain)%nat) as (p' & Mtld).
  exists (p', []).
  eapply MCat; [apply (plus_chr_intro _ _ Nl Hl)|].
  eapply MCat; [apply MStar0|].
  eapply MCat; [now constructor|].
  eapply MCat; [apply (plus_chr_intro _ _ Nd Hd)|].
  eapply MCat; [apply MStar0|].
  eapply MCat; [|now constructor].
  eapply MCat; [exact Mtld | apply MStar0].
Qed.

Lemma ereg_accepts_plain_witness :
  re_search ereg
    (string_of_list_ascii
       (list_ascii_of_string "jo" ++ "@"%char
        :: list_ascii_of_string "mail" ++ "."%char :: list_ascii_of_string "org"))
  = true.
Proof.
  apply ereg_accepts_plain; vm_compute; solve [reflexivity | discriminate | lia].
Defined.

(** ** The exception of the API *)

Lemma dict_get_set_same (k : string) (v : json) (items : list (string * json)) :
  dict_get k (dict_set k v items) = Some v.
Proof.
  induction items as [|[k' v'] items IH]; cbn [dict_set dict_get].
  - now rewrite String.eqb_refl.
  - destruct (String.eqb k k') eqn:E; cbn [dict_get].
    + now rewrite String.eqb_refl.
    + rewrite E. exact IH.
Qed.

Lemma dict_get_set_other (k k0 : string) (v : json)
    (items : list (string * json)) :
  k0 <> k -> dict_get k0 (dict_set k v items) = dict_get k0 items.
Proof.
  intros Hne. apply String.eqb_neq in Hne.
  induction items as [|[k' v'] items IH]; cbn [dict_set dict_get].
  - now rewrite Hne.
  - destruct (String.eqb k k') eqn:E; cbn [dict_get].
    + apply String.eqb_eq in E as <-. now rewrite Hne.
    + destruct (String.eqb k0 k'); [reflexivity | exact IH].
Qed.

(** X5. The answer to an [APIException] carries the status code of the
    exception, its message under ["error"], whatever the payload holds
    under that key, and every other key of the payload as it is. *)
Theorem handle_invalid_usage_body (error0 : string) (status_code0 : nat)
    (payload0 : option (list (string * json))) :
  status (handle_invalid_usage error0 status_code0 payload0) = status_code0
  /\ dict_get "error"
       (json_items (body (handle_invalid_usage error0 status_code0 payload0)))
     = Some (JStr error0)
  /\ (forall k, k <> "error" ->
      dict_get k
        (json_items (body (handle_invalid_usage error0 status_code0 payload0)))
      = dict_get k (default [] payload0)).
Proof.
  unfold handle_invalid_usage, to_dict. cbn [status body jsonify json_items].
  split; [reflexivity|]. split.
  - apply dict_get_set_same.
  - intros k Hk. now apply dict_get_set_other.
Qed.

Lemma handle_invalid_usage_body_witness :
  dict_get "field"
    (json_items (body (handle_invalid_usage "bad" 422
                         (Some [("error", JStr "x"); ("field", JStr "email")]))))
  = Some (JStr "email").
Proof.
  refine (proj2 (proj2 (handle_invalid_usage_body "bad" 422
            (Some [("error", JStr "x"); ("field", JStr "email")]))) "field" _).
  discriminate.
Defined.

(** ** The user table *)


Lemma users_step `{Lib} (ep : Endpoint) (env : Env) (req : Request) (st : Store) :
  users (snd (view_of ep env req st)) = users st
  \/ (ep = SignUp
      /\ exists e p f l,
           sign_up_fields req = Ok (JStr e, JStr p, f, l)
           /\ has_email e (users st) = false
           /\ view_of ep env req st
              = (Ok (jsonify (JObj [("success", JStr "created")]) 201),
                 {| users := users st ++ [new_User e p f l (uuid4 env)];
                    ledger := ledger st |})).
Proof.
  destruct ep as [| | |token_id| |]; cbn [view_of].
  - unfold sign_up. destruct (sign_up_fields req) as [[[[e p] f] l]|] eqn:Hf;
      [|left; reflexivity].
    destruct e as [| | |e| |]; try (left; reflexivity).
    destruct p as [| | |p| |]; try (left; reflexivity).
    unfold commit_user. cbn [email new_User].
    destruct (existsb _ (users st)) eqn:Hx; [left; reflexivity|].
    right. split; [reflexivity|]. exists e, p, f, l. auto.
  - left. unfold login. repeat case_match; reflexivity.
  - left. unfold get_tokens, jwt_required. repeat case_match; reflexivity.
  - left. unfold modify_token, jwt_required. repeat case_match; reflexivity.
  - left. unfold logout_user, jwt_required. repeat case_match; reflexivity.
  - left. unfold prune_db, jwt_required. repeat case_match; reflexivity.
Qed.


Lemma has_email_false (e : string) (us : list User) :
  has_email e us = false -> e ∉ List.map email us.
Proof.
  unfold has_email. intros Hx Hin. apply list_elem_of_In, in_map_iff in Hin
    as (u & Eu & Hu).
  assert (existsb (fun u0 => String.eqb (email u0) e) us = true).
  { apply existsb_exists. exists u. split; [exact Hu|]. now apply String.eqb_eq. }
  congruence.
Qed.

(** X7. No two users share an email: if that holds of the store, it holds of
    the store every endpoint returns. *)
Theorem emails_stay_distinct `{Lib} (ep : Endpoint) (env : Env) (req : Request)
    (st : Store) :
  NoDup (List.map email (users st)) ->
  NoDup (List.map email (users (snd (serve ep env req st)))).
Proof.
  intros Hnd. unfold serve.
  destruct (users_step ep env req st) as [Hu|(-> & e & p & f & l & _ & Hn & Hv)].
  - destruct (view_of ep env req st). cbn [snd] in *. now rewrite Hu.
  - rewrite Hv. cbn [snd users]. rewrite map_app. apply NoDup_app.
    split; [exact Hnd|]. split; [|apply NoDup_singleton].
    intros x Hx Hin. cbn in Hin. apply list_elem_of_singleton in Hin. subst x.
    exact (has_email_false _ _ Hn Hx).
Qed.

Lemma emails_stay_distinct_witness :
  NoDup (List.map email (users (snd (serve (L := demo_lib) SignUp demo_env
    {| is_json := true;
       data := Some (JObj [("email", JStr "c@d.org");
                           ("password", JStr "Abcdef12");
                           ("fname", JStr "Jo"); ("lname", JStr "Doe")]);
       credential := NoToken |} demo_store)))).
Proof.
  apply (emails_stay_distinct (H := demo_lib)).
  vm_compute. apply NoDup_singleton.
Defined.

(** ** Bodies that are no JSON object *)

(** X8. A body of [modify_token] that is true in Python's sense and no object
    (a non-empty array or string, a number other than 0, [true]) has no
    [get]: the view ends in an [AttributeError], answered 500, and the
    store stays as it is. *)
Theorem modify_token_non_object_body (token_id : string) (env : Env)
    (req : Request) (st : Store) (c : Claims) (v : json) :
  bearer req = Some c ->
  check_if_token_revoked c st = false ->
  get_json req = Some v ->
  truthy v = true ->
  is_object v = false ->
  modify_token token_id env req st = (Raise AttributeError, st)
  /\ status (respond (fst (modify_token token_id env req st))) = 500%nat.
Proof.
  intros Hb Hc Hj Ht Ho. unfold modify_token, jwt_required.
  rewrite (bearer_Valid _ _ Hb), Hc, Hj, Ht. cbn [negb].
  destruct v; try discriminate; split; reflexivity.
Qed.

Lemma modify_token_non_object_body_witness :
  modify_token "j-1" demo_env
    (demo_request true (Some (JArr [JBool true]))) demo_store
  = (Raise AttributeError, demo_store).
Proof.
  refine (proj1 (modify_token_non_object_body "j-1" demo_env
            (demo_request true (Some (JArr [JBool true]))) demo_store
            demo_claims (JArr [JBool true]) _ _ _ _ _));
    vm_compute; reflexivity.
Defined.

(** X9. A sign-up whose body is JSON but no object never writes. [null] is
    answered 400 "not body in request"; a number or a boolean cannot be
    searched for a key and ends in 500; an array or a string is answered
    400 "email not found in request" unless ["email"] is among the elements
    of the array, or occurs in the string, and then indexing it ends in
    500. *)
Theorem sign_up_non_object_body `{Lib} (env : Env) (req : Request) (st : Store)
    (v : json) :
  get_json req = Some v ->
  is_object v = false ->
  snd (serve SignUp env req st) = st
  /\ match v with
     | JNull =>
         fst (serve SignUp env req st) = api_error "not body in request" 400
     | JBool _ | JNum _ => status (fst (serve SignUp env req st)) = 500%nat
     | JArr l =>
         if existsb (is_str "email") l
         then status (fst (serve SignUp env req st)) = 500%nat
         else fst (serve SignUp env req st)
              = api_error "email not found in request" 400
     | JStr s =>
         if occurs "email" s
         then status (fst (serve SignUp env req st)) = 500%nat
         else fst (serve SignUp env req st)
              = api_error "email not found in request" 400
     | JObj _ => True
     end.
Proof.
  intros Hj Ho. unfold serve, view_of, sign_up, sign_up_fields.
  destruct (get_json_Some _ _ Hj) as [-> _]. rewrite Hj. cbn [negb].
  destruct v as [|b|n|s|l|items]; try discriminate;
    unfold field, py_contains, py_getitem; cbn [bind].
  - split; reflexivity.
  - split; reflexivity.
  - split; reflexivity.
  - destruct (occurs "email" s); split; reflexivity.
  - destruct (existsb (is_str "email") l); split; reflexivity.
Qed.

Lemma sign_up_non_object_body_witness :
  fst (serve (L := demo_lib) SignUp demo_env
         {| is_json := true; data := Some (JArr [JStr "e"; JStr "p"]);
            credential := NoToken |} demo_store)
  = api_error "email not found in request" 400.
Proof.
  refine (proj2 (sign_up_non_object_body (H := demo_lib) demo_env
            {| is_json := true; data := Some (JArr [JStr "e"; JStr "p"]);
               credential := NoToken |} demo_store (JArr [JStr "e"; JStr "p"]) _ _));
    reflexivity.
Defined.

(** ** Login and what it tells *)

Lemma find_has_email (e : string) (us : list User) :
  has_email e us
  = match List.find (fun u => String.eqb (email u) e) us with
    | Some _ => true
    | None => false
    end.
Proof.
  unfold has_email. induction us as [|u us IH]; cbn [existsb List.find];
    [reflexivity|].
  destruct (String.eqb (email u) e); [reflexivity | exact IH].
Qed.

(** X10. The answers of [login] tell whether an email is registered: for a body
    with an email and a password, the answer is 404 "user not found"
    exactly when no user has that email. *)
Theorem login_reveals_registration `{Lib} (env : Env) (req : Request)
    (st : Store) (items : list (string * json)) (e p : string) :
  get_json req = Some (JObj items) ->
  dict_get "email" items = Some (JStr e) ->
  dict_get "password" items = Some (JStr p) ->
  fst (serve Login env req st) = api_error "user not found" 404
  <-> has_email e (users st) = false.
Proof.
  intros Hj He Hp. rewrite find_has_email.
  unfold serve, view_of, login.
  rewrite (login_fields_Ok req items _ _ Hj He Hp).
  rewrite (py_getitem_Some _ _ _ He), (py_getitem_Some _ _ _ Hp).
  cbn [bind first_by_email as_str].
  destruct (List.find _ (users st)) as [user|]; [|split; reflexivity].
  split; [|discriminate]. intros Hr. exfalso.
  destruct (password_hash user) as [h|]; [|discriminate].
  cbn [as_str] in Hr. destruct (negb (check_password_hash h p)); [discriminate|].
  unfold add_token_to_database in Hr.
  destruct (decode_token _) as [c|]; [|discriminate].
  destruct (ledger st !! jti c); discriminate.
Qed.

Lemma login_reveals_registration_witness :
  fst (serve (L := demo_lib) Login demo_env
         {| is_json := true;
            data := Some (JObj [("email", JStr "no@one.org");
                                ("password", JStr "Abcdef12")]);
            credential := NoToken |} demo_store)
  = api_error "user not found" 404.
Proof.
  refine (proj2 (login_reveals_registration (H := demo_lib) demo_env
            {| is_json := true;
               data := Some (JObj [("email", JStr "no@one.org");
                                   ("password", JStr "Abcdef12")]);
               credential := NoToken |} demo_store
            [("email", JStr "no@one.org"); ("password", JStr "Abcdef12")]
            "no@one.org" "Abcdef12" _ _ _) _);
    reflexivity.
Defined.

Lemma find_app_new (e : string) (us : list User) (u : User) :
  has_email e us = false -> email u = e ->
  List.find (fun u0 => String.eqb (email u0) e) (us ++ [u]) = Some u.
Proof.
  unfold has_email. intros Hn Hu.
  induction us as [|u0 us IH]; cbn [app List.find existsb] in *.
  - rewrite Hu, String.eqb_refl. reflexivity.
  - apply orb_false_iff in Hn as [-> Hn]. exact (IH Hn).
Qed.

(** X11. Who signed up can log in: after a sign-up answered 201, a login with
    the same email and password is answered 200 with a token whose identity
    is the public id drawn at the sign-up, and the ledger holds that token
    as not revoked; given that the hash of a password verifies it, that the
    token decodes to its claims, and that its [jti] is new. *)
Theorem sign_up_then_login `{Lib} (env env2 : Env) (req req2 : Request)
    (st : Store) (items : list (string * json)) (e p f l : string) :
  sign_up_fields req = Ok (JStr e, JStr p, f, l) ->
  has_email e (users st) = false ->
  get_json req2 = Some (JObj items) ->
  dict_get "email" items = Some (JStr e) ->
  dict_get "password" items = Some (JStr p) ->
  check_password_hash (generate_password_hash p) p = true ->
  let c := {| jti := uuid4 env2; identity := uuid4 env; type := "access";
              exp := (now env2 + JWT_ACCESS_TOKEN_EXPIRES)%Z |} in
  decode_token (encode_token c) = Some c ->
  ledger st !! uuid4 env2 = None ->
  status (fst (serve SignUp env req st)) = 201%nat
  /\ fst (serve Login env2 req2 (snd (serve SignUp env req st)))
     = jsonify (JObj [("user", serialize_public (new_User e p f l (uuid4 env)));
                      ("access_token", JStr (encode_token c))]) 200
  /\ check_if_token_revoked c
       (snd (serve Login env2 req2 (snd (serve SignUp env req st)))) = false.
Proof.
  intros Hf Hn Hj He Hp Hh c Hd Hfresh.
  assert (Hs : serve SignUp env req st
               = (jsonify (JObj [("success", JStr "created")]) 201,
                  {| users := users st ++ [new_User e p f l (uuid4 env)];
                     ledger := ledger st |})).
  { unfold serve, view_of, sign_up, commit_user. rewrite Hf.
    cbn [email new_User]. unfold has_email in Hn. rewrite Hn. reflexivity. }
  rewrite Hs. cbn [fst snd status jsonify]. split; [reflexivity|].
  unfold serve, view_of, login.
  rewrite (login_fields_Ok req2 items _ _ Hj He Hp).
  rewrite (py_getitem_Some _ _ _ He), (py_getitem_Some _ _ _ Hp).
  cbn [bind first_by_email as_str users].
  rewrite (find_app_new e (users st) (new_User e p f l (uuid4 env)) Hn eq_refl).
  cbn [password_hash new_User as_str public_id]. rewrite Hh. cbn [negb].
  unfold create_access_token, add_token_to_database. fold c.
  rewrite Hd. cbn [jti c ledger]. rewrite Hfresh. cbn [fst snd respond].
  split; [reflexivity|].
  unfold check_if_token_revoked, is_token_revoked. cbn.
  rewrite lookup_insert_eq. reflexivity.
Qed.

Lemma sign_up_then_login_witness :
  let env := {| uuid4 := "u-1"; now := 0 |} in
  let req := {| is_json := true;
                data := Some (JObj [("email", JStr "c@d.org");
                                    ("password", JStr "Abcdef12");
                                    ("fname", JStr "Jo"); ("lname", JStr "Doe")]);
                credential := NoToken |} in
  let st := {| users := []; ledger := ∅ |} in
  status (fst (serve (L := demo_lib) Login demo_env req
                 (snd (serve (L := demo_lib) SignUp env req st)))) = 200%nat.
Proof.
  intros env req st.
  destruct (sign_up_then_login (H := demo_lib) env demo_env req req st
              [("email", JStr "c@d.org"); ("password", JStr "Abcdef12");
               ("fname", JStr "Jo"); ("lname", JStr "Doe")]
              "c@d.org" "Abcdef12" "Jo" "Doe"
              ltac:(vm_compute; reflexivity) eq_refl eq_refl eq_refl eq_refl
              eq_refl eq_refl eq_refl) as (_ & -> & _).
  reflexivity.
Defined.

(** ** Behind [@jwt_required] *)

Lemma jwt_required_refuses (view : string -> View) (env : Env) (req : Request)
    (st : Store) :
  match credential req with
  | ValidToken c => check_if_token_revoked c st = true
  | NoToken | ExpiredToken | InvalidToken => True
  end ->
  snd (jwt_required view env req st) = st
  /\ status (respond (fst (jwt_required view env req st)))
     = match credential req with InvalidToken => 422%nat | _ => 401%nat end.
Proof.
  unfold jwt_required.
  destruct (credential req) as [| | |c]; intros Hc; try (split; reflexivity).
  rewrite Hc. split; reflexivity.
Qed.

Lemma protected_refuses `{Lib} (ep : Endpoint) (env : Env) (req : Request)
    (st : Store) :
  protected ep = true ->
  match credential req with
  | ValidToken c => check_if_token_revoked c st = true
  | NoToken | ExpiredToken | InvalidToken => True
  end ->
  status (fst (serve ep env req st))
    = match credential req with InvalidToken => 422%nat | _ => 401%nat end
  /\ snd (serve ep env req st) = st.
Proof.
  intros Hp Hc. unfold serve.
  destruct ep as [| | |token_id| |]; try discriminate; cbn [view_of];
    unfold get_tokens, modify_token, logout_user, prune_db;
    match goal with |- context [jwt_required ?v env req st] =>
      destruct (jwt_required_refuses v env req st Hc) as [Hs Hr];
      destruct (jwt_required v env req st) as [r st']
    end; cbn [fst snd] in *; auto.
Qed.

(** X12. The four views behind [@jwt_required] leave the store as it is and
    answer 401 when the request has no token, an expired token, or a valid
    one that the ledger holds revoked or does not hold at all; they answer
    422, the store again as it is, when the token is invalid. *)
Theorem protected_views_refuse `{Lib} (ep : Endpoint) (env : Env) (req : Request)
    (st : Store) :
  protected ep = true ->
  match credential req with
  | NoToken | ExpiredToken =>
      status (fst (serve ep env req st)) = 401%nat
      /\ snd (serve ep env req st) = st
  | InvalidToken =>
      status (fst (serve ep env req st)) = 422%nat
      /\ snd (serve ep env req st) = st
  | ValidToken c =>
      (ledger st !! jti c = None
       \/ exists t, ledger st !! jti c = Some t /\ revoked t = true) ->
      status (fst (serve ep env req st)) = 401%nat
      /\ snd (serve ep env req st) = st
  end.
Proof.
  intros Hp. pose proof (protected_refuses ep env req st Hp) as Hr.
  destruct (credential req) as [| | |c]; try (apply Hr; exact I).
  intros Hc. apply Hr. unfold check_if_token_revoked, is_token_revoked.
  destruct Hc as [-> | (t & -> & Ht)]; [reflexivity | exact Ht].
Qed.

Lemma protected_views_refuse_witness :
  status (fst (serve (L := demo_lib) PruneDb demo_env
                 {| is_json := true; data := None;
                    credential := ValidToken {| jti := "j-0"; identity := "u-1";
                                      type := "access"; exp := 50 |} |}
                 demo_store)) = 401%nat
  /\ snd (serve (L := demo_lib) PruneDb demo_env
            {| is_json := true; data := None;
               credential := ValidToken {| jti := "j-0"; identity := "u-1";
                                 type := "access"; exp := 50 |} |}
            demo_store) = demo_store.
Proof.
  refine (protected_views_refuse (H := demo_lib) PruneDb demo_env
            {| is_json := true; data := None;
               credential := ValidToken {| jti := "j-0"; identity := "u-1";
                                           type := "access"; exp := 50 |} |}
            demo_store eq_refl _).
  right. exists (demo_row "u-1" true 50). split; vm_compute; reflexivity.
Defined.

(** X13. After a logout the token that asked for it is refused: when the ledger
    entry of the token belongs to the identity in its claims, every view
    behind [@jwt_required] answers 401 to that token on the store the
    logout returns. *)
Theorem logout_then_refused `{Lib} (ep : Endpoint) (env env' : Env)
    (req req' : Request) (st : Store) (c : Claims) :
  bearer req = Some c ->
  check_if_token_revoked c st = false ->
  is_json req = true ->
  (forall t, ledger st !! jti c = Some t -> user_identity t = identity c) ->
  protected ep = true ->
  bearer req' = Some c ->
  status (fst (serve LogoutUser env req st)) = 200%nat
  /\ status (fst (serve ep env' req' (snd (serve LogoutUser env req st))))
     = 401%nat.
Proof.
  intros Hb Hc Hj Ho Hp Hb'.
  assert (Hs : serve LogoutUser env req st
               = (jsonify (JObj [("success", JStr "user logged out")]) 200,
                  with_ledger st (logout_everywhere (identity c) (ledger st)))).
  { unfold serve, view_of, logout_user, jwt_required.
    rewrite (bearer_Valid _ _ Hb), Hc, Hj.
    reflexivity. }
  rewrite Hs. cbn [fst snd status jsonify]. split; [reflexivity|].
  pose proof (protected_refuses ep env' req'
                (with_ledger st (logout_everywhere (identity c) (ledger st)))
                Hp) as Hr.
  rewrite (bearer_Valid _ _ Hb') in Hr. apply Hr.
  unfold check_if_token_revoked, is_token_revoked in *. cbn [ledger with_ledger].
  rewrite logout_everywhere_lookup.
  destruct (ledger st !! jti c) as [t|] eqn:E; [|reflexivity].
  rewrite decide_True by (apply Ho; reflexivity). reflexivity.
Qed.

Lemma logout_then_refused_witness :
  status (fst (serve (L := demo_lib) GetTokens demo_env (demo_request true None)
                 (snd (serve (L := demo_lib) LogoutUser demo_env
                         (demo_request true None) demo_store)))) = 401%nat.
Proof.
  refine (proj2 (logout_then_refused (H := demo_lib) GetTokens demo_env demo_env
            (demo_request true None) (demo_request true None) demo_store
            demo_claims eq_refl _ eq_refl _ eq_refl eq_refl)).
  - vm_compute. reflexivity.
  - intros t Ht. vm_compute in Ht. injection Ht as <-. reflexivity.
Defined.

(** X14. Pruning asks for a valid token and for nothing else: whoever the
    caller is, an expired entry goes, whoever owns it, and two callers get
    the same answer and the same store. *)
Theorem prune_db_open_to_any_caller (env : Env) (req1 req2 : Request)
    (st : Store) (c1 c2 : Claims) :
  bearer req1 = Some c1 -> check_if_token_revoked c1 st = false ->
  bearer req2 = Some c2 -> check_if_token_revoked c2 st = false ->
  prune_db env req1 st = prune_db env req2 st
  /\ status (respond (fst (prune_db env req1 st))) = 200%nat
  /\ (forall j t, ledger st !! j = Some t -> (expires t < now env)%Z ->
        ledger (snd (prune_db env req1 st)) !! j = None).
Proof.
  intros Hb1 Hc1 Hb2 Hc2. unfold prune_db, jwt_required.
  rewrite (bearer_Valid _ _ Hb1), Hc1, (bearer_Valid _ _ Hb2), Hc2. cbn [fst snd respond status jsonify].
  repeat split. intros j t E Hlt. cbn [ledger with_ledger].
  rewrite prune_database_lookup, E. destruct (decide _); [reflexivity | lia].
Qed.

Lemma prune_db_open_to_any_caller_witness :
  ledger (snd (prune_db {| uuid4 := "x"; now := 60 |}
                 {| is_json := false; data := None;
                    credential := ValidToken {| jti := "k-1"; identity := "u-9";
                                      type := "access"; exp := 100 |} |}
                 demo_store)) !! "j-0" = None.
Proof.
  refine (proj2 (proj2 (prune_db_open_to_any_caller {| uuid4 := "x"; now := 60 |}
            {| is_json := false; data := None;
               credential := ValidToken {| jti := "k-1"; identity := "u-9";
                                 type := "access"; exp := 100 |} |}
            (demo_request true None) demo_store
            {| jti := "k-1"; identity := "u-9"; type := "access"; exp := 100 |}
            demo_claims eq_refl _ eq_refl _))
            "j-0" (demo_row "u-1" true 50) _ _);
    vm_compute; reflexivity.
Defined.

(** ** What the toggle and the login write *)

(** X15. A toggle by the owner of the entry is answered 200 with the message
    of the direction asked for; after it the revocation predicate answers
    the value of [revoke] for that [jti], and every other entry of the
    ledger is as it was. *)
Theorem modify_token_sets_flag (token_id : string) (env : Env) (req : Request)
    (st : Store) (c : Claims) (items : list (string * json)) (b : bool)
    (t : TokenBlacklist) :
  bearer req = Some c ->
  check_if_token_revoked c st = false ->
  get_json req = Some (JObj items) ->
  dict_get "revoke" items = Some (JBool b) ->
  ledger st !! token_id = Some t ->
  user_identity t = identity c ->
  fst (modify_token token_id env req st)
    = Ok (jsonify (JObj [("msg", JStr (if b then "Token revoked"
                                       else "Token unrevoked"))]) 200)
  /\ (forall c', jti c' = token_id ->
        check_if_token_revoked c' (snd (modify_token token_id env req st)) = b)
  /\ (forall j, j <> token_id ->
        ledger (snd (modify_token token_id env req st)) !! j = ledger st !! j).
Proof.
  intros Hb Hc Hj Hr Ht Ho.
  assert (Hm : modify_token token_id env req st
               = (Ok (jsonify (JObj [("msg", JStr (if b then "Token revoked"
                                                   else "Token unrevoked"))]) 200),
                  with_ledger st (<[token_id := set_revoked b t]> (ledger st)))).
  { unfold modify_token, jwt_required, revoke_token, unrevoke_token, toggle.
    rewrite (bearer_Valid _ _ Hb), Hc, Hj, Ht.
    destruct (decide (user_identity t = identity c)) as [_|Hx]; [|contradiction].
    destruct items as [|kv items]; [discriminate|].
    cbn [truthy negb py_get]. rewrite Hr. cbn [default].
    destruct b; reflexivity. }
  rewrite Hm. cbn [fst snd ledger with_ledger]. split; [reflexivity|]. split.
  - intros c' <-. unfold check_if_token_revoked, is_token_revoked.
    cbn [ledger with_ledger]. rewrite lookup_insert_eq. reflexivity.
  - intros j Hne. rewrite lookup_insert_ne by congruence. reflexivity.
Qed.

Lemma modify_token_sets_flag_witness :
  check_if_token_revoked demo_claims
    (snd (modify_token "j-1" demo_env
            (demo_request true (Some (JObj [("revoke", JBool true)])))
            demo_store)) = true.
Proof.
  refine (proj1 (proj2 (modify_token_sets_flag "j-1" demo_env
            (demo_request true (Some (JObj [("revoke", JBool true)])))
            demo_store demo_claims [("revoke", JBool true)] true
            (demo_row "u-1" false 100) eq_refl _ eq_refl eq_refl _ eq_refl))
            demo_claims eq_refl);
    vm_compute; reflexivity.
Defined.

(** X16. A login writes only when it is answered 200: any other answer leaves
    the store as it was. It never touches the user table, and what it adds
    to the ledger is one entry, not revoked, under a [jti] that was free. *)
Theorem login_writes_only_on_success `{Lib} (env : Env) (req : Request)
    (st : Store) :
  (status (fst (serve Login env req st)) <> 200%nat ->
   snd (serve Login env req st) = st)
  /\ users (snd (serve Login env req st)) = users st
  /\ (ledger (snd (serve Login env req st)) = ledger st
      \/ exists j t, ledger st !! j = None /\ revoked t = false
           /\ ledger (snd (serve Login env req st)) = <[j := t]> (ledger st)).
Proof.
  unfold serve, view_of, login.
  destruct (login_fields req) as [b|x]; [|auto].
  destruct (bind (py_getitem "email" b) _) as [[user|]|x]; [|auto|auto].
  destruct (password_hash user) as [h|]; [|auto].
  destruct (bind (py_getitem "password" b) as_str) as [pw|x]; [|auto].
  destruct (negb (check_password_hash h pw)); [auto|].
  unfold add_token_to_database.
  destruct (decode_token _) as [c|]; [|auto].
  destruct (ledger st !! jti c) eqn:E; [auto|].
  cbn [fst snd status jsonify respond users ledger with_ledger].
  split; [intros Hx; contradiction|]. split; [reflexivity|].
  right. eexists _, _. split; [exact E|]. split; [|reflexivity]. reflexivity.
Qed.

Lemma login_writes_only_on_success_witness :
  snd (serve (L := demo_lib) Login demo_env
         {| is_json := true;
            data := Some (JObj [("email", JStr "a@b.com");
                                ("password", JStr "wrong")]);
            credential := NoToken |} demo_store) = demo_store.
Proof.
  refine (proj1 (login_writes_only_on_success (H := demo_lib) demo_env
            {| is_json := true;
               data := Some (JObj [("email", JStr "a@b.com");
                                   ("password", JStr "wrong")]);
               credential := NoToken |} demo_store) _).
  vm_compute. discriminate.
Defined.

(** ** The patterns on a few addresses and passwords *)

Example ereg_com : re_search ereg "user@example.com" = true.
Proof. vm_compute. reflexivity. Qed.
Example ereg_info : re_search ereg "user@example.info" = false.
Proof. vm_compute. reflexivity. Qed.
Example preg_ok : re_search preg "Abcdef12" = true.
Proof. vm_compute. reflexivity. Qed.
Example preg_short : re_search preg "Abcde12" = false.
Proof. vm_compute. reflexivity. Qed.
